(** * Trimify: the queue / appointment store and the walk-in form

    A shallow embedding of the parts of the barbershop back end and client
    that schedule work:

    - the schema ([src/shared/schema.ts], lines 1-232): the tables
      [customers], [services], [appointments], [queue], [transactions] and
      the insert types derived from them;
    - the storage class [DatabaseStorage] (same file, lines 338-769): the
      queue, appointment, transaction and dashboard operations;
    - the routes ([registerRoutes], same file, lines 787-1135): the HTTP
      handlers in front of them;
    - the client ([src/unnamed/part_004]: [QueueManagement] and
      [AppointmentBookingModal]; [src/unnamed/part_002]: the appointments
      page): position and wait-time computation, end-time pre-fill and the
      status menus.

    Conventions.  JavaScript numbers that hold integers are [Z]; a [Date] or
    a [timestamp] column is its epoch time in milliseconds ([Z]); a
    [decimal(10,2)] amount is its number of cents ([Z]); a [varchar] is a
    [string].  A nullable column is an [option].  The store is passed
    explicitly: every operation takes the database and returns the new one.
    [new Date()] and [defaultNow()] read the clock, which is the argument
    [now] of the operations that use it.  A storage operation is given as
    the effect of its statement when the database accepts it; what the database refuses (a reference to a missing row, an
    integer its column cannot hold) is stated with the handlers, where the
    refusal becomes the handler's 500.  A tenant id handed to an operation
    is the id of a row of [users]: the login writes that row before any
    handler runs. *)

From Stdlib Require Import ZArith List String Bool Lia Permutation.
Import ListNotations.

Local Open Scope string_scope.
Local Open Scope list_scope.
Local Open Scope Z_scope.

(** ** Values of insert and patch objects *)

(** A key of an object handed to [.values(...)] or [.set(...)] is absent
    ([undefined]), [null], or holds a value. *)
Inductive optional (A : Type) : Type :=
| Undefined : optional A
| Null : optional A
| Value : A -> optional A.

Arguments Undefined {A}.
Arguments Null {A}.
Arguments Value {A} _.

(** [.values]: an absent key takes the column default ([None] when the
    column has none), [null] stores NULL. *)
Definition columnValue {A : Type} (default : option A) (o : optional A) : option A :=
  match o with
  | Undefined => default
  | Null => None
  | Value a => Some a
  end.

(** [.set] on a nullable column: an absent key leaves the column alone. *)
Definition setNullable {A : Type} (o : optional A) (old : option A) : option A :=
  match o with
  | Undefined => old
  | Null => None
  | Value a => Some a
  end.

(** [.set] on a NOT NULL column of a [Partial<...>] patch. *)
Definition setRequired {A : Type} (o : option A) (old : A) : A :=
  match o with
  | None => old
  | Some a => a
  end.

(** ** Rows (the [pgTable] declarations, schema.ts lines 43-132) *)

Module Customer.
Record t : Type := mk
  { id : Z;
    userId : string;
    name : string;
    email : option string;
    phone : option string;
    notes : option string;
    preferredBarber : option string;
    visitCount : option Z }.
End Customer.

Module Service.
Record t : Type := mk
  { id : Z;
    userId : string;
    name : string;
    description : option string;
    price : Z;            (* cents *)
    duration : Z;         (* in minutes *)
    isActive : option bool;
    createdAt : option Z }.
End Service.

Module Appointment.
Record t : Type := mk
  { id : Z;
    userId : string;
    customerId : Z;
    serviceId : Z;
    barber : option string;
    startTime : Z;
    endTime : Z;
    status : option string;   (* scheduled, in_progress, completed, cancelled *)
    notes : option string;
    createdAt : option Z;
    updatedAt : option Z }.
End Appointment.

Module Queue.
Record t : Type := mk
  { id : Z;
    userId : string;
    customerId : Z;
    serviceId : Z;
    barber : option string;
    position : Z;
    status : option string;   (* waiting, in_progress, completed *)
    estimatedWaitTime : option Z;   (* in minutes *)
    joinedAt : option Z;
    updatedAt : option Z }.
End Queue.

Module Transaction.
Record t : Type := mk
  { id : Z;
    userId : string;
    customerId : option Z;
    appointmentId : option Z;
    total : Z;            (* cents *)
    paymentMethod : string;   (* cash, card, digital *)
    status : option string;   (* pending, completed, refunded *)
    createdAt : option Z }.
End Transaction.

(** [insertAppointmentSchema]: the table without [id], [userId],
    [createdAt], [updatedAt]. *)
Module InsertAppointment.
Record t : Type := mk
  { customerId : Z;
    serviceId : Z;
    barber : optional string;
    startTime : Z;
    endTime : Z;
    status : optional string;
    notes : optional string }.
End InsertAppointment.

(** [Partial<InsertAppointment>]. *)
Module PartialAppointment.
Record t : Type := mk
  { customerId : option Z;
    serviceId : option Z;
    barber : optional string;
    startTime : option Z;
    endTime : option Z;
    status : optional string;
    notes : optional string }.
End PartialAppointment.

(** [insertQueueSchema]: the table without [id], [userId], [joinedAt],
    [updatedAt]. *)
Module InsertQueue.
Record t : Type := mk
  { customerId : Z;
    serviceId : Z;
    barber : optional string;
    position : Z;
    status : optional string;
    estimatedWaitTime : optional Z }.
End InsertQueue.

(** [insertTransactionSchema]: the table without [id], [userId],
    [createdAt]. *)
Module InsertTransaction.
Record t : Type := mk
  { customerId : optional Z;
    appointmentId : optional Z;
    total : Z;
    paymentMethod : string;
    status : optional string }.
End InsertTransaction.

(** ** The database *)

(** The tables in insertion order, and the [serial] sequences of the tables
    this development inserts into. *)
Record Db : Type := mkDb
  { customers : list Customer.t;
    services : list Service.t;
    appointments : list Appointment.t;
    queue : list Queue.t;
    transactions : list Transaction.t;
    appointments_id_seq : Z;
    queue_id_seq : Z;
    transactions_id_seq : Z }.

Definition emptyDb : Db := mkDb [] [] [] [] [] 0 0 0.

Definition withAppointments (db : Db) (rows : list Appointment.t) (next : Z) : Db :=
  mkDb (customers db) (services db) rows (queue db) (transactions db)
       next (queue_id_seq db) (transactions_id_seq db).

Definition withQueue (db : Db) (rows : list Queue.t) (next : Z) : Db :=
  mkDb (customers db) (services db) (appointments db) rows (transactions db)
       (appointments_id_seq db) next (transactions_id_seq db).

Definition withTransactions (db : Db) (rows : list Transaction.t) (next : Z) : Db :=
  mkDb (customers db) (services db) (appointments db) (queue db) rows
       (appointments_id_seq db) (queue_id_seq db) next.

(** ** Appointment operations ([DatabaseStorage], schema.ts lines 470-489) *)

(** [createAppointment]: [insert(appointments).values({...appointment, userId}).returning()]. *)
Definition createAppointment (appointment : InsertAppointment.t) (userId : string)
    (now : Z) (db : Db) : Appointment.t * Db :=
  let newAppointment :=
    Appointment.mk
      (appointments_id_seq db + 1)
      userId
      (InsertAppointment.customerId appointment)
      (InsertAppointment.serviceId appointment)
      (columnValue None (InsertAppointment.barber appointment))
      (InsertAppointment.startTime appointment)
      (InsertAppointment.endTime appointment)
      (columnValue (Some "scheduled") (InsertAppointment.status appointment))
      (columnValue None (InsertAppointment.notes appointment))
      (Some now)
      (Some now) in
  (newAppointment,
   withAppointments db (appointments db ++ [newAppointment]) (appointments_id_seq db + 1)).

Definition setAppointment (appointment : PartialAppointment.t) (now : Z)
    (row : Appointment.t) : Appointment.t :=
  Appointment.mk
    (Appointment.id row)
    (Appointment.userId row)
    (setRequired (PartialAppointment.customerId appointment) (Appointment.customerId row))
    (setRequired (PartialAppointment.serviceId appointment) (Appointment.serviceId row))
    (setNullable (PartialAppointment.barber appointment) (Appointment.barber row))
    (setRequired (PartialAppointment.startTime appointment) (Appointment.startTime row))
    (setRequired (PartialAppointment.endTime appointment) (Appointment.endTime row))
    (setNullable (PartialAppointment.status appointment) (Appointment.status row))
    (setNullable (PartialAppointment.notes appointment) (Appointment.notes row))
    (Appointment.createdAt row)
    (Some now).

(** [updateAppointment]:
    [update(appointments).set({...appointment, updatedAt: new Date()}).where(eq(appointments.id, id)).returning()];
    the result is the first returned row, [undefined] when there is none. *)
Definition updateAppointment (id : Z) (appointment : PartialAppointment.t)
    (now : Z) (db : Db) : option Appointment.t * Db :=
  let rows :=
    map (fun row => if Appointment.id row =? id
                    then setAppointment appointment now row else row)
        (appointments db) in
  (hd_error (filter (fun row => Appointment.id row =? id) rows),
   withAppointments db rows (appointments_id_seq db)).

(** [deleteAppointment]: [delete(appointments).where(eq(appointments.id, id))]. *)
Definition deleteAppointment (id : Z) (db : Db) : Db :=
  withAppointments db
    (filter (fun row => negb (Appointment.id row =? id)) (appointments db))
    (appointments_id_seq db).

(** ** Queue operations ([DatabaseStorage], schema.ts lines 491-528) *)

(** [orderBy(asc(queue.position))], as a stable insertion sort. *)
Fixpoint insertByPosition (row : Queue.t) (rows : list Queue.t) : list Queue.t :=
  match rows with
  | [] => [row]
  | r :: rest =>
      if Queue.position row <=? Queue.position r
      then row :: rows
      else r :: insertByPosition row rest
  end.

Definition orderByPosition (rows : list Queue.t) : list Queue.t :=
  fold_right insertByPosition [] rows.

(** [where(eq(queue.userId, userId))]. *)
Definition queueOf (userId : string) (db : Db) : list Queue.t :=
  filter (fun row => String.eqb (Queue.userId row) userId) (queue db).

(** [getQueue]. *)
Definition getQueue (userId : string) (db : Db) : list Queue.t :=
  orderByPosition (queueOf userId db).

(** [addToQueue]: [insert(queue).values({...queueItem, userId}).returning()]. *)
Definition addToQueue (queueItem : InsertQueue.t) (userId : string)
    (now : Z) (db : Db) : Queue.t * Db :=
  let newQueueItem :=
    Queue.mk
      (queue_id_seq db + 1)
      userId
      (InsertQueue.customerId queueItem)
      (InsertQueue.serviceId queueItem)
      (columnValue None (InsertQueue.barber queueItem))
      (InsertQueue.position queueItem)
      (columnValue (Some "waiting") (InsertQueue.status queueItem))
      (columnValue None (InsertQueue.estimatedWaitTime queueItem))
      (Some now)
      (Some now) in
  (newQueueItem, withQueue db (queue db ++ [newQueueItem]) (queue_id_seq db + 1)).

Definition setPosition (position : Z) (now : Z) (row : Queue.t) : Queue.t :=
  Queue.mk (Queue.id row) (Queue.userId row) (Queue.customerId row)
    (Queue.serviceId row) (Queue.barber row) position (Queue.status row)
    (Queue.estimatedWaitTime row) (Queue.joinedAt row) (Some now).

Definition setStatus (status : string) (now : Z) (row : Queue.t) : Queue.t :=
  Queue.mk (Queue.id row) (Queue.userId row) (Queue.customerId row)
    (Queue.serviceId row) (Queue.barber row) (Queue.position row) (Some status)
    (Queue.estimatedWaitTime row) (Queue.joinedAt row) (Some now).

(** [update(queue).set(...).where(eq(queue.id, id)).returning()], first row. *)
Definition updateQueueWhereId (id : Z) (set : Queue.t -> Queue.t) (db : Db)
    : option Queue.t * Db :=
  let rows := map (fun row => if Queue.id row =? id then set row else row) (queue db) in
  (hd_error (filter (fun row => Queue.id row =? id) rows),
   withQueue db rows (queue_id_seq db)).

(** [updateQueuePosition]: [.set({ position, updatedAt: new Date() })]. *)
Definition updateQueuePosition (id : Z) (position : Z) (now : Z) (db : Db)
    : option Queue.t * Db :=
  updateQueueWhereId id (setPosition position now) db.

(** [updateQueueStatus]: [.set({ status, updatedAt: new Date() })]. *)
Definition updateQueueStatus (id : Z) (status : string) (now : Z) (db : Db)
    : option Queue.t * Db :=
  updateQueueWhereId id (setStatus status now) db.

(** [removeFromQueue]: [delete(queue).where(eq(queue.id, id))]. *)
Definition removeFromQueue (id : Z) (db : Db) : Db :=
  withQueue db (filter (fun row => negb (Queue.id row =? id)) (queue db))
    (queue_id_seq db).


(** ** Transactions and the dashboard ([DatabaseStorage], schema.ts lines 612-677) *)

(** [createTransaction]: [insert(transactions).values({...transaction, userId}).returning()]. *)
Definition createTransaction (transaction : InsertTransaction.t) (userId : string)
    (now : Z) (db : Db) : Transaction.t * Db :=
  let newTransaction :=
    Transaction.mk
      (transactions_id_seq db + 1)
      userId
      (columnValue None (InsertTransaction.customerId transaction))
      (columnValue None (InsertTransaction.appointmentId transaction))
      (InsertTransaction.total transaction)
      (InsertTransaction.paymentMethod transaction)
      (columnValue (Some "completed") (InsertTransaction.status transaction))
      (Some now) in
  (newTransaction,
   withTransactions db (transactions db ++ [newTransaction]) (transactions_id_seq db + 1)).

Definition msPerMinute : Z := 60000.
Definition msPerDay : Z := 86400000.

(** [const today = new Date(); today.setHours(0, 0, 0, 0)]: the last local
    midnight, for a server whose zone is [utcOffset] minutes east of UTC
    (a fixed offset: no daylight-saving change). *)
Definition localMidnight (utcOffset : Z) (now : Z) : Z :=
  (now + utcOffset * msPerMinute) / msPerDay * msPerDay - utcOffset * msPerMinute.

(** [tomorrow.setDate(tomorrow.getDate() + 1)]. *)
Definition nextMidnight (today : Z) : Z := today + msPerDay.

(** [eq(column, date)] on a nullable timestamp column. *)
Definition eqTimestamp (column : option Z) (date : Z) : bool :=
  match column with
  | Some t => t =? date
  | None => false
  end.

Record DashboardStats : Type := mkStats
  { todayQueueCount : Z;
    todayAppointmentCount : Z;
    averageWaitTime : Z;
    todayRevenue : Z }.   (* cents *)

(** [item.estimatedWaitTime || 0]. *)
Definition orZero (v : option Z) : Z :=
  match v with
  | Some n => n
  | None => 0
  end.

(** [Math.round(sum / n)] for integers [sum] and [n > 0]: halves round up. *)
Definition roundDiv (sum n : Z) : Z := (2 * sum + n) / (2 * n).

(** The rows selected for "today's revenue":
    [where(and(eq(transactions.userId, userId),
               eq(transactions.createdAt, today),
               eq(transactions.createdAt, tomorrow)))]. *)
Definition todayTransactions (userId : string) (today tomorrow : Z) (db : Db)
    : list Transaction.t :=
  filter (fun row => String.eqb (Transaction.userId row) userId
                     && eqTimestamp (Transaction.createdAt row) today
                     && eqTimestamp (Transaction.createdAt row) tomorrow)
         (transactions db).

(** [getDashboardStats]. *)
Definition getDashboardStats (userId : string) (utcOffset : Z) (now : Z) (db : Db)
    : DashboardStats :=
  let today := localMidnight utcOffset now in
  let tomorrow := nextMidnight today in
  let queueCount := Z.of_nat (List.length (queueOf userId db)) in
  let appointmentCount :=
    Z.of_nat (List.length (filter (fun row => String.eqb (Appointment.userId row) userId
                                         && (Appointment.startTime row =? today)
                                         && (Appointment.startTime row =? tomorrow))
                             (appointments db))) in
  let queueItems := queueOf userId db in
  let averageWaitTime :=
    if (0 <? Z.of_nat (List.length queueItems))
    then roundDiv
           (fold_left (fun sum item => sum + orZero (Queue.estimatedWaitTime item)) queueItems 0)
           (Z.of_nat (List.length queueItems))
    else 0 in
  let todayRevenue :=
    fold_left (fun sum transaction => sum + Transaction.total transaction)
              (todayTransactions userId today tomorrow db) 0 in
  mkStats queueCount appointmentCount averageWaitTime todayRevenue.

(** ** HTTP handlers ([registerRoutes], schema.ts lines 803-1013) *)

(** What a handler sends: [res.json(body)], or [res.status(500).json({message})]
    from its [catch] block, which runs when parsing the body or a statement
    of the database throws; no handler sends any other error. *)
Inductive response (A : Type) : Type :=
| Json : A -> response A
| Status500 : string -> response A.

Arguments Json {A} _.
Arguments Status500 {A} _.

(** The body of a successful response. *)
Definition sent {A : Type} (r : response A) : option A :=
  match r with
  | Json body => Some body
  | Status500 _ => None
  end.

(** In every handler [caller] is [req.user.claims.sub], the tenant the
    [isAuthenticated] middleware let in.  Handlers that take their row from
    [req.params.id] never read it; the id is [parseInt(req.params.id)], here
    an integer of the range of the [serial] column it is compared with. *)

(** What an [integer] column holds. *)
Definition int4 (n : Z) : bool := (-2147483648 <=? n) && (n <=? 2147483647).

Definition int4Key (o : optional Z) : bool :=
  match o with
  | Value n => int4 n
  | _ => true
  end.

(** [references(() => customers.id)], [references(() => services.id)]: some
    row has the id, whoever owns it. *)
Definition customerExists (id : Z) (db : Db) : bool :=
  existsb (fun c => Customer.id c =? id) (customers db).

Definition serviceExists (id : Z) (db : Db) : bool :=
  existsb (fun s => Service.id s =? id) (services db).

(** An insert into [queue]: every integer fits its column (a value that
    does not is refused before the statement runs), and [customer_id] and
    [service_id] name rows that exist (checked once the row is formed). *)
Definition queueInsertFits (queueItem : InsertQueue.t) : bool :=
  int4 (InsertQueue.customerId queueItem)
  && int4 (InsertQueue.serviceId queueItem)
  && int4 (InsertQueue.position queueItem)
  && int4Key (InsertQueue.estimatedWaitTime queueItem).

Definition queueReferencesExist (queueItem : InsertQueue.t) (db : Db) : bool :=
  customerExists (InsertQueue.customerId queueItem) db
  && serviceExists (InsertQueue.serviceId queueItem) db.

(** The inserts into [queue] the database accepts. *)
Definition queueInsertAccepted (queueItem : InsertQueue.t) (db : Db) : bool :=
  queueInsertFits queueItem && queueReferencesExist queueItem db.

(** What a refused insert into [queue] leaves behind: no row; a row refused
    for a missing reference has drawn its id from the [serial] sequence,
    which does not take it back. *)
Definition refusedQueueInsert (queueItem : InsertQueue.t) (db : Db) : Db :=
  if queueInsertFits queueItem
  then withQueue db (queue db) (queue_id_seq db + 1)
  else db.

(** The same for [appointments]. *)
Definition appointmentInsertFits (appointment : InsertAppointment.t) : bool :=
  int4 (InsertAppointment.customerId appointment)
  && int4 (InsertAppointment.serviceId appointment).

Definition appointmentReferencesExist (appointment : InsertAppointment.t) (db : Db) : bool :=
  customerExists (InsertAppointment.customerId appointment) db
  && serviceExists (InsertAppointment.serviceId appointment) db.

Definition appointmentInsertAccepted (appointment : InsertAppointment.t) (db : Db) : bool :=
  appointmentInsertFits appointment && appointmentReferencesExist appointment db.

Definition refusedAppointmentInsert (appointment : InsertAppointment.t) (db : Db) : Db :=
  if appointmentInsertFits appointment
  then withAppointments db (appointments db) (appointments_id_seq db + 1)
  else db.

(** What a JSON body holds under [startTime] or [endTime]: text, a number,
    or another JSON value ([null], a boolean, an array, an object); JSON has
    no [Date]. *)
Inductive jsonTime : Type :=
| TimeText : string -> jsonTime
| TimeNumber : Z -> jsonTime
| TimeOther : jsonTime.

(** [z.date()], the type [createInsertSchema] gives a [timestamp] column: it
    accepts [Date] objects only, so nothing a JSON body holds. *)
Definition zodDate (v : jsonTime) : option Z :=
  match v with
  | TimeText _ => None
  | TimeNumber _ => None
  | TimeOther => None
  end.

(** The body of [POST /api/appointments]; an absent time is [None]. *)
Module AppointmentBody.
Record t : Type := mk
  { customerId : Z;
    serviceId : Z;
    barber : optional string;
    startTime : option jsonTime;
    endTime : option jsonTime;
    status : optional string;
    notes : optional string }.
End AppointmentBody.

(** [insertAppointmentSchema.parse(req.body)]: [None] when it throws. *)
Definition insertAppointmentSchema_parse (body : AppointmentBody.t)
    : option InsertAppointment.t :=
  match AppointmentBody.startTime body, AppointmentBody.endTime body with
  | Some s, Some e =>
      match zodDate s, zodDate e with
      | Some startTime, Some endTime =>
          Some (InsertAppointment.mk
                  (AppointmentBody.customerId body)
                  (AppointmentBody.serviceId body)
                  (AppointmentBody.barber body)
                  startTime endTime
                  (AppointmentBody.status body)
                  (AppointmentBody.notes body))
      | _, _ => None
      end
  | _, _ => None
  end.

(** [insertAppointmentSchema.partial().parse(req.body)] on a patch taken
    from a JSON body: a time it carries is text there, which [z.date()]
    refuses. *)
Definition partialAppointmentParses (patch : PartialAppointment.t) : bool :=
  match PartialAppointment.startTime patch, PartialAppointment.endTime patch with
  | None, None => true
  | _, _ => false
  end.

(** The updates of [appointments] the database accepts. *)
Definition appointmentUpdateAccepted (patch : PartialAppointment.t) (db : Db) : bool :=
  match PartialAppointment.customerId patch with
  | Some id => int4 id && customerExists id db
  | None => true
  end
  && match PartialAppointment.serviceId patch with
     | Some id => int4 id && serviceExists id db
     | None => true
     end.

(** [app.get('/api/queue')]. *)
Definition GET_api_queue (caller : string) (db : Db) : response (list Queue.t) :=
  Json (getQueue caller db).

(** [app.post('/api/queue')]: [insertQueueSchema.parse(req.body)], then
    [addToQueue]; an insert the database refuses throws and is caught. *)
Definition POST_api_queue (caller : string) (queueData : InsertQueue.t)
    (now : Z) (db : Db) : response Queue.t * Db :=
  if queueInsertAccepted queueData db then
    let (queueItem, db') := addToQueue queueData caller now db in
    (Json queueItem, db')
  else (Status500 "Failed to add to queue", refusedQueueInsert queueData db).

(** [app.put('/api/queue/:id/position')]: [req.body.position] goes to the
    update unchecked; a value the column cannot hold throws and is caught. *)
Definition PUT_api_queue_position (caller : string) (queueId : Z) (position : Z)
    (now : Z) (db : Db) : response (option Queue.t) * Db :=
  if int4 position then
    let (queueItem, db') := updateQueuePosition queueId position now db in
    (Json queueItem, db')
  else (Status500 "Failed to update queue position", db).

(** [app.put('/api/queue/:id/status')]. *)
Definition PUT_api_queue_status (caller : string) (queueId : Z) (status : string)
    (now : Z) (db : Db) : response (option Queue.t) * Db :=
  let (queueItem, db') := updateQueueStatus queueId status now db in
  (Json queueItem, db').

(** [app.delete('/api/queue/:id')]. *)
Definition DELETE_api_queue (caller : string) (queueId : Z) (db : Db)
    : response string * Db :=
  (Json "Removed from queue successfully", removeFromQueue queueId db).

(** [app.post('/api/appointments')]: [insertAppointmentSchema.parse(req.body)],
    then [createAppointment]. *)
Definition POST_api_appointments (caller : string) (body : AppointmentBody.t)
    (now : Z) (db : Db) : response Appointment.t * Db :=
  match insertAppointmentSchema_parse body with
  | Some appointmentData =>
      if appointmentInsertAccepted appointmentData db then
        let (appointment, db') := createAppointment appointmentData caller now db in
        (Json appointment, db')
      else (Status500 "Failed to create appointment",
            refusedAppointmentInsert appointmentData db)
  | None => (Status500 "Failed to create appointment", db)
  end.

(** [app.put('/api/appointments/:id')]:
    [insertAppointmentSchema.partial().parse(req.body)], then
    [updateAppointment]. *)
Definition PUT_api_appointments (caller : string) (appointmentId : Z)
    (appointmentData : PartialAppointment.t) (now : Z) (db : Db)
    : response (option Appointment.t) * Db :=
  if partialAppointmentParses appointmentData
     && appointmentUpdateAccepted appointmentData db then
    let (appointment, db') := updateAppointment appointmentId appointmentData now db in
    (Json appointment, db')
  else (Status500 "Failed to update appointment", db).

(** [app.get('/api/dashboard/stats')]. *)
Definition GET_api_dashboard_stats (caller : string) (utcOffset : Z) (now : Z) (db : Db)
    : response DashboardStats :=
  Json (getDashboardStats caller utcOffset now db).

(** ** The client: [AppointmentBookingModal] (part_004 lines 280-411) *)

(** What evaluating a piece of JavaScript ends in. *)
Inductive jsError : Type := ReferenceError | RangeError.

Inductive completion (A : Type) : Type :=
| Normal : A -> completion A
| Throw : jsError -> completion A.

Arguments Normal {A} _.
Arguments Throw {A} _.

(** A [const] binding: uninitialised from the start of its block until its
    initialiser has been evaluated; reading it before that throws. *)
Inductive binding (A : Type) : Type :=
| Uninitialized : binding A
| Initialized : A -> binding A.

Arguments Uninitialized {A}.
Arguments Initialized {A} _.

Definition readBinding {A : Type} (b : binding A) : completion A :=
  match b with
  | Uninitialized => Throw ReferenceError
  | Initialized a => Normal a
  end.

(** The value of a [datetime-local] input: the empty string, or
    "YYYY-MM-DDTHH:mm", held as the minutes from 1970-01-01T00:00 to the
    wall-clock time it shows. *)
Inductive datetimeLocal : Type :=
| EmptyString : datetimeLocal
| WallClock : Z -> datetimeLocal.

(** A [Date] object. *)
Inductive Date : Type :=
| InvalidDate : Date
| Instant : Z -> Date.   (* epoch milliseconds *)

(** [new Date(s)] for such a string: a date-time without offset is local
    time; the browser's zone is [utcOffset] minutes east of UTC. *)
Definition newDate (utcOffset : Z) (s : datetimeLocal) : Date :=
  match s with
  | EmptyString => InvalidDate
  | WallClock minutes => Instant ((minutes - utcOffset) * msPerMinute)
  end.

(** [new Date(d.getTime() + ms)]: [getTime()] of an invalid date is NaN. *)
Definition plusMs (d : Date) (ms : Z) : Date :=
  match d with
  | InvalidDate => InvalidDate
  | Instant t => Instant (t + ms)
  end.

(** [d.toISOString().slice(0, 16)]: the UTC wall-clock time to the minute
    (years 0000 to 9999); [toISOString] throws on an invalid date. *)
Definition toISOString_slice16 (d : Date) : completion datetimeLocal :=
  match d with
  | InvalidDate => Throw RangeError
  | Instant t => Normal (WallClock (t / msPerMinute))
  end.

(** The form's values ([appointmentFormSchema], with the walk-in [position]). *)
Record FormValues : Type := mkForm
  { form_customerId : Z;
    form_serviceId : Z;
    form_barber : string;
    form_startTime : datetimeLocal;
    form_endTime : datetimeLocal;
    form_notes : string;
    form_position : Z }.

(** [services?.find((s) => s.id === serviceId)]. *)
Definition findService (services : option (list Service.t)) (serviceId : Z)
    : option Service.t :=
  match services with
  | None => None
  | Some l => find (fun s => Service.id s =? serviceId) l
  end.

(** [item.status === 'waiting']. *)
Definition isWaiting (item : Queue.t) : bool :=
  match Queue.status item with
  | Some s => String.eqb s "waiting"
  | None => false
  end.

(** [calculateEstimatedWaitTime]:
    [serviceDuration = service?.duration || 30],
    [queueLength = queueData?.filter(waiting).length || 0]. *)
Definition calculateEstimatedWaitTime (services : option (list Service.t))
    (queueData : option (list Queue.t)) (serviceId : Z) : Z :=
  let service := findService services serviceId in
  let serviceDuration :=
    match service with
    | Some s => if Service.duration s =? 0 then 30 else Service.duration s
    | None => 30
    end in
  let queueLength :=
    match queueData with
    | Some l => Z.of_nat (List.length (filter isWaiting l))
    | None => 0
    end in
  queueLength * serviceDuration.

(** [x?.length ? x.length + 1 : 1], from what [x?.length] gives
    ([None] for [undefined]). *)
Definition lengthPlusOne (length : option Z) : Z :=
  match length with
  | Some n => if n =? 0 then 1 else n + 1
  | None => 1
  end.

(** [queueData?.length] of the fetched queue. *)
Definition queueDataLength (queueData : option (list Queue.t)) : option Z :=
  option_map (fun l => Z.of_nat (List.length l)) queueData.

(** [useForm]'s [defaultValues.position], with [queueData] the result of
    the ["/api/queue"] query. *)
Definition defaultValues_position (queueData : option (list Queue.t)) : Z :=
  lengthPlusOne (queueDataLength queueData).

(** What [onSubmit] hands to a mutation. *)
Inductive mutation : Type :=
| CreateWalkIn : InsertQueue.t -> mutation          (* POST /api/queue *)
| CreateAppointment : FormValues -> mutation        (* POST /api/appointments *)
| UpdateAppointment : Z -> FormValues -> mutation.  (* PUT /api/appointments/:id *)

(** [onSubmit].  In the walk-in branch the payload is declared as
    [const queueData = { ..., position: queueData?.length ? queueData.length + 1 : 1,
                         estimatedWaitTime: calculateEstimatedWaitTime(data.serviceId) }]:
    within that block the name [queueData] is the constant being declared,
    not the fetched queue, so the initialiser reads a binding that is not
    initialised yet.  (Were it initialised it would be the payload object,
    which has no [length].)  [calculateEstimatedWaitTime] is a closure of
    the component and sees the fetched queue. *)
Definition onSubmit (isWalkIn : bool) (appointmentToEdit : option Appointment.t)
    (services : option (list Service.t)) (queueData : option (list Queue.t))
    (data : FormValues) : completion mutation :=
  if isWalkIn then
    let queueData_block : binding InsertQueue.t := Uninitialized in
    match readBinding queueData_block with
    | Throw e => Throw e
    | Normal _ =>
        Normal (CreateWalkIn
                  (InsertQueue.mk
                     (form_customerId data)
                     (form_serviceId data)
                     (Value (form_barber data))
                     (lengthPlusOne None)
                     Undefined
                     (Value (calculateEstimatedWaitTime services queueData
                                                        (form_serviceId data)))))
    end
  else
    match appointmentToEdit with
    | Some a => Normal (UpdateAppointment (Appointment.id a) data)
    | None => Normal (CreateAppointment data)
    end.

Definition setEndTime (form : FormValues) (endTime : datetimeLocal) : FormValues :=
  mkForm (form_customerId form) (form_serviceId form) (form_barber form)
    (form_startTime form) endTime (form_notes form) (form_position form).

(** [const end = new Date(start.getTime() + service.duration * 60000)]. *)
Definition endDate (utcOffset : Z) (startTime : datetimeLocal) (service : Service.t) : Date :=
  plusMs (newDate utcOffset startTime) (Service.duration service * 60000).

(** [handleStartTimeChange]: with a service found and not a walk-in,
    [form.setValue('endTime', end.toISOString().slice(0, 16))]. *)
Definition handleStartTimeChange (utcOffset : Z) (isWalkIn : bool)
    (services : option (list Service.t)) (form : FormValues)
    (startTime : datetimeLocal) : completion FormValues :=
  match findService services (form_serviceId form) with
  | Some service =>
      if negb isWalkIn then
        match toISOString_slice16 (endDate utcOffset startTime service) with
        | Throw e => Throw e
        | Normal s => Normal (setEndTime form s)
        end
      else Normal form
  | None => Normal form
  end.

(** ** The client: status menus *)

Definition statusIs (status : option string) (s : string) : bool :=
  match status with
  | Some x => String.eqb x s
  | None => false
  end.

(** [QueueManagement] (part_004 lines 175-188): the status changes its
    drop-down offers for an item ("Start Service", "Complete Service"). *)
Definition queueStatusMenu (status : option string) : list string :=
  (if statusIs status "waiting" then ["in_progress"] else [])
  ++ (if statusIs status "in_progress" then ["completed"] else []).

(** The appointments page (part_002 lines 245-272): "Start Service",
    "Complete Service", and "Cancel", which is offered for every
    appointment. *)
Definition appointmentStatusMenu (status : option string) : list string :=
  (if statusIs status "scheduled" then ["in_progress"] else [])
  ++ (if statusIs status "in_progress" then ["completed"] else [])
  ++ ["cancelled"].

(** ** The queue as a line: positions of the entries still to be served *)

(** An entry is terminal once its status is [completed]. *)
Definition nonTerminal (row : Queue.t) : bool :=
  negb (statusIs (Queue.status row) "completed").

Definition liveOf (userId : string) (db : Db) : list Queue.t :=
  filter nonTerminal (queueOf userId db).

Definition livePositions (userId : string) (db : Db) : list Z :=
  map Queue.position (liveOf userId db).

Definition liveCount (userId : string) (db : Db) : Z :=
  Z.of_nat (List.length (liveOf userId db)).

(** A list of positions is dense when its members are exactly 1, ..., N,
    N being its length (so none is missing and none occurs twice). *)
Definition denseList (positions : list Z) : Prop :=
  forall p, In p positions <-> 1 <= p <= Z.of_nat (List.length positions).

(** The same, as a test. *)
Definition denseListb (positions : list Z) : bool :=
  forallb (fun p => (1 <=? p) && (p <=? Z.of_nat (List.length positions))) positions
  && forallb (fun k => existsb (Z.eqb (Z.of_nat k)) positions)
             (seq 1 (List.length positions)).

(** The positions of a tenant's non-terminal entries are exactly 1, ..., N,
    N being their number. *)
Definition dense (userId : string) (db : Db) : Prop :=
  denseList (livePositions userId db).

Definition denseb (userId : string) (db : Db) : bool :=
  denseListb (livePositions userId db).

(** The three mutations of the queue, and runs of them; each call carries
    the clock reading at which it executes. *)
Inductive queueOp : Type :=
| Admit : InsertQueue.t -> string -> queueOp     (* addToQueue *)
| Reposition : Z -> Z -> queueOp                 (* updateQueuePosition *)
| Remove : Z -> queueOp.                         (* removeFromQueue *)

Definition applyOp (now : Z) (op : queueOp) (db : Db) : Db :=
  match op with
  | Admit queueItem userId => snd (addToQueue queueItem userId now db)
  | Reposition id position => snd (updateQueuePosition id position now db)
  | Remove id => removeFromQueue id db
  end.

Fixpoint run (calls : list (Z * queueOp)) (db : Db) : Db :=
  match calls with
  | [] => db
  | (now, op) :: rest => run rest (applyOp now op db)
  end.

(** The calls under which the store, which never renumbers, keeps the line
    dense: an admission that supplies the next free position (or a completed
    entry); a reposition of a non-terminal entry to the position it has; a
    removal of the entry at the end of its tenant's line (or of a completed
    one). *)
Definition keepsDense (db : Db) (op : queueOp) : bool :=
  match op with
  | Admit queueItem userId =>
      statusIs (columnValue (Some "waiting") (InsertQueue.status queueItem)) "completed"
      || (InsertQueue.position queueItem =? liveCount userId db + 1)
  | Reposition id position =>
      forallb (fun row => implb ((Queue.id row =? id) && nonTerminal row)
                                (Queue.position row =? position))
              (queue db)
  | Remove id =>
      forallb (fun row => implb ((Queue.id row =? id) && nonTerminal row)
                                (Queue.position row =? liveCount (Queue.userId row) db))
              (queue db)
  end.

Fixpoint allKeepDense (db : Db) (calls : list (Z * queueOp)) : bool :=
  match calls with
  | [] => true
  | (now, op) :: rest => keepsDense db op && allKeepDense (applyOp now op db) rest
  end.

(** The tenant's appointments: [where(eq(appointments.userId, userId))]. *)
Definition appointmentsOf (userId : string) (db : Db) : list Appointment.t :=
  filter (fun row => String.eqb (Appointment.userId row) userId) (appointments db).

(** The number of a tenant's entries in status [waiting]. *)
Definition waitingCount (userId : string) (db : Db) : Z :=
  Z.of_nat (List.length (filter isWaiting (queueOf userId db))).

(** The number of rows among [rows] that [userId] owns and whose status is
    the text [waiting], counted row by row. *)
Fixpoint waitingEntriesIn (userId : string) (rows : list Queue.t) : Z :=
  match rows with
  | [] => 0
  | r :: rest =>
      match string_dec (Queue.userId r) userId, Queue.status r with
      | left _, Some status =>
          if string_dec status "waiting"
          then 1 + waitingEntriesIn userId rest
          else waitingEntriesIn userId rest
      | _, _ => waitingEntriesIn userId rest
      end
  end.

Definition waitingEntries (userId : string) (db : Db) : Z :=
  waitingEntriesIn userId (queue db).

(** The times the [timestamp] columns take from a [Date] as they are: those
    whose ISO text has a four-digit year, 0001-01-01T00:00:00.000Z to
    9999-12-31T23:59:59.999Z. *)
Definition storableTime (t : Z) : bool :=
  (-62135596800000 <=? t) && (t <=? 253402300799999).

(** The status edges of the two state machines. *)
Definition queueEdge (current requested : string) : bool :=
  (String.eqb current "waiting" && String.eqb requested "in_progress")
  || (String.eqb current "in_progress" && String.eqb requested "completed").

Definition appointmentEdge (current requested : string) : bool :=
  (String.eqb current "scheduled" && String.eqb requested "in_progress")
  || (String.eqb current "in_progress" && String.eqb requested "completed")
  || ((String.eqb current "scheduled" || String.eqb current "in_progress")
      && String.eqb requested "cancelled").

(** The sum of [total] over a tenant's transactions created in
    [[today, tomorrow)], whatever their status. *)
Definition revenueInWindow (userId : string) (today tomorrow : Z) (db : Db) : Z :=
  fold_left (fun sum transaction => sum + Transaction.total transaction)
    (filter (fun row => String.eqb (Transaction.userId row) userId
                        && match Transaction.createdAt row with
                           | Some t => (today <=? t) && (t <? tomorrow)
                           | None => false
                           end)
            (transactions db))
    0.

(** ** Example stores *)

Definition walkIn (position : Z) (estimatedWaitTime : Z) : InsertQueue.t :=
  InsertQueue.mk 1 1 Undefined position Undefined (Value estimatedWaitTime).

(** Three walk-ins admitted by tenant ["shop"] at positions 1, 2, 3. *)
Definition threeWaiting : Db :=
  run [(10, Admit (walkIn 1 0) "shop");
       (20, Admit (walkIn 2 30) "shop");
       (30, Admit (walkIn 3 60) "shop")]
      emptyDb.

(** Tenant ["other"] with a customer, a 30-minute service and nothing else. *)
Definition otherTenantShop : Db :=
  mkDb [Customer.mk 1 "other" "Ann" None None None None (Some 0)]
       [Service.mk 1 "other" "Haircut" None 2500 30 (Some true) (Some 0)]
       [] [] [] 0 0 0.

(** Tenants ["other"] and ["shop"], each with one customer and one service. *)
Definition twoShops : Db :=
  mkDb [Customer.mk 1 "other" "Ann" None None None None (Some 0);
        Customer.mk 2 "shop" "Bob" None None None None (Some 0)]
       [Service.mk 1 "other" "Haircut" None 2500 30 (Some true) (Some 0);
        Service.mk 2 "shop" "Shave" None 1500 15 (Some true) (Some 0)]
       [] [] [] 0 0 0.

(** A walk-in of customer 2 for service 2, which are tenant ["shop"]'s. *)
Definition shopWalkIn (position : Z) (estimatedWaitTime : Z) : InsertQueue.t :=
  InsertQueue.mk 2 2 Undefined position Undefined (Value estimatedWaitTime).

(** [twoShops] after each tenant has admitted a walk-in of its own at
    position 1: entry 1 is tenant ["other"]'s, entry 2 tenant ["shop"]'s. *)
Definition twoLines : Db :=
  snd (POST_api_queue "shop" (shopWalkIn 1 0) 20
         (snd (POST_api_queue "other" (walkIn 1 0) 10 twoShops))).

(** [twoShops] after tenant ["shop"] has admitted three walk-ins at
    positions 1, 2, 3. *)
Definition shopLine : Db :=
  snd (POST_api_queue "shop" (shopWalkIn 3 30) 30
         (snd (POST_api_queue "shop" (shopWalkIn 2 15) 20
                 (snd (POST_api_queue "shop" (shopWalkIn 1 0) 10 twoShops))))).

(** A booking of customer 1 for service 1 from [startTime] to [endTime]. *)
Definition booking (startTime endTime : Z) : InsertAppointment.t :=
  InsertAppointment.mk 1 1 Undefined startTime endTime Undefined Undefined.

(** One appointment of tenant ["other"]. *)
Definition otherTenantAppointment : Db :=
  snd (createAppointment (booking 0 1800000) "other" 10 otherTenantShop).

(** A patch that sets only the status. *)
Definition statusPatch (status : string) : PartialAppointment.t :=
  PartialAppointment.mk None None Undefined None None (Value status) Undefined.

(** [threeWaiting] after entry 1 has been served. *)
Definition firstCompleted : Db :=
  snd (updateQueueStatus 1 "completed" 40 threeWaiting).

(** The 30-minute service of the examples, as the client lists it. *)
Definition haircut : Service.t :=
  Service.mk 1 "shop" "Haircut" None 2500 30 (Some true) (Some 0).

(** The 15-minute service of tenant ["shop"] in [twoShops], and services
    with the same id stored with a duration of 0 and of -10 minutes. *)
Definition shave : Service.t :=
  Service.mk 2 "shop" "Shave" None 1500 15 (Some true) (Some 0).

Definition shaveOfDuration (duration : Z) : Service.t :=
  Service.mk 2 "shop" "Shave" None 1500 duration (Some true) (Some 0).

(** The body the booking form sends: its times are the text of the
    [datetime-local] fields. *)
Definition bookingBody (startTime endTime : string) : AppointmentBody.t :=
  AppointmentBody.mk 1 1 Undefined (Some (TimeText startTime)) (Some (TimeText endTime))
    Undefined Undefined.

(** 2024-01-01T00:00, 09:00, 09:30 and 10:00 UTC. *)
Definition jan1_0000 : Z := 1704067200000.
Definition jan1_0900 : Z := 1704099600000.
Definition jan1_0930 : Z := 1704101400000.
Definition jan1_1000 : Z := 1704103200000.

(** Tenant ["shop"] with two transactions of that day: 20.00 pending and
    35.00 completed. *)
Definition twoTransactionsToday : Db :=
  snd (createTransaction
         (InsertTransaction.mk Undefined Undefined 3500 "card" (Value "completed"))
         "shop" jan1_0930
         (snd (createTransaction
                 (InsertTransaction.mk Undefined Undefined 2000 "cash" (Value "pending"))
                 "shop" jan1_0900 emptyDb))).

(** ** More of the storage class: reads, services, runs of calls *)

From Stdlib Require Import Ascii Decimal DecimalString DecimalZ Sorted.

(** [orderBy(...)] in general, as a stable insertion sort by [le]. *)
Fixpoint insertBy {A : Type} (le : A -> A -> bool) (row : A) (rows : list A) : list A :=
  match rows with
  | [] => [row]
  | r :: rest => if le row r then row :: rows else r :: insertBy le row rest
  end.

Definition orderBy {A : Type} (le : A -> A -> bool) (rows : list A) : list A :=
  fold_right (insertBy le) [] rows.

(** [getAppointments] (schema.ts lines 437-443):
    [where(eq(appointments.userId, userId)).orderBy(desc(appointments.startTime))]. *)
Definition getAppointments (userId : string) (db : Db) : list Appointment.t :=
  orderBy (fun a b => Appointment.startTime b <=? Appointment.startTime a)
          (appointmentsOf userId db).

(** [getTodaysAppointments] (lines 445-460):
    [where(and(eq(userId), eq(startTime, today), eq(startTime, tomorrow)))
     .orderBy(asc(appointments.startTime))]. *)
Definition getTodaysAppointments (userId : string) (utcOffset : Z) (now : Z) (db : Db)
    : list Appointment.t :=
  let today := localMidnight utcOffset now in
  let tomorrow := nextMidnight today in
  orderBy (fun a b => Appointment.startTime a <=? Appointment.startTime b)
          (filter (fun row => String.eqb (Appointment.userId row) userId
                              && (Appointment.startTime row =? today)
                              && (Appointment.startTime row =? tomorrow))
                  (appointments db)).

(** [getAppointment] (lines 462-468): the first row with the id, if any. *)
Definition getAppointment (id : Z) (db : Db) : option Appointment.t :=
  hd_error (filter (fun row => Appointment.id row =? id) (appointments db)).

(** [desc(createdAt)] on a nullable timestamp: PostgreSQL sorts NULL as
    larger than every value, so first when descending. *)
Definition timestampDescLe (a b : option Z) : bool :=
  match a, b with
  | None, _ => true
  | Some _, None => false
  | Some x, Some y => y <=? x
  end.

(** [getTodaysTransactions] (lines 595-610): the filter of the dashboard's
    revenue, ordered by [desc(createdAt)]. *)
Definition getTodaysTransactions (userId : string) (utcOffset : Z) (now : Z) (db : Db)
    : list Transaction.t :=
  let today := localMidnight utcOffset now in
  let tomorrow := nextMidnight today in
  orderBy (fun a b => timestampDescLe (Transaction.createdAt a) (Transaction.createdAt b))
          (todayTransactions userId today tomorrow db).

Definition withServices (db : Db) (rows : list Service.t) : Db :=
  mkDb (customers db) rows (appointments db) (queue db) (transactions db)
       (appointments_id_seq db) (queue_id_seq db) (transactions_id_seq db).

(** [eq(services.isActive, true)]: NULL is not true. *)
Definition isActiveService (row : Service.t) : bool :=
  match Service.isActive row with
  | Some b => b
  | None => false
  end.

(** [getServices] (lines 399-405):
    [where(and(eq(services.userId, userId), eq(services.isActive, true)))
     .orderBy(asc(services.name))].  The order of names is the collation of
    the database, [nameLe]. *)
Definition getServices (nameLe : string -> string -> bool) (userId : string) (db : Db)
    : list Service.t :=
  orderBy (fun a b => nameLe (Service.name a) (Service.name b))
          (filter (fun row => String.eqb (Service.userId row) userId
                              && isActiveService row)
                  (services db)).

(** [getService] (lines 407-413): by id alone, active or not. *)
Definition getService (id : Z) (db : Db) : option Service.t :=
  hd_error (filter (fun row => Service.id row =? id) (services db)).

Definition deactivate (row : Service.t) : Service.t :=
  Service.mk (Service.id row) (Service.userId row) (Service.name row)
    (Service.description row) (Service.price row) (Service.duration row)
    (Some false) (Service.createdAt row).

(** [deleteService] (lines 432-434):
    [update(services).set({ isActive: false }).where(eq(services.id, id))]. *)
Definition deleteService (id : Z) (db : Db) : Db :=
  withServices db
    (map (fun row => if Service.id row =? id then deactivate row else row)
         (services db)).

(** The mutations of the storage class modelled here, and runs of them. *)
Inductive storageCall : Type :=
| CallCreateAppointment : InsertAppointment.t -> string -> storageCall
| CallUpdateAppointment : Z -> PartialAppointment.t -> storageCall
| CallDeleteAppointment : Z -> storageCall
| CallAddToQueue : InsertQueue.t -> string -> storageCall
| CallUpdateQueuePosition : Z -> Z -> storageCall
| CallUpdateQueueStatus : Z -> string -> storageCall
| CallRemoveFromQueue : Z -> storageCall
| CallCreateTransaction : InsertTransaction.t -> string -> storageCall
| CallDeleteService : Z -> storageCall.

Definition applyCall (now : Z) (call : storageCall) (db : Db) : Db :=
  match call with
  | CallCreateAppointment appointment userId =>
      snd (createAppointment appointment userId now db)
  | CallUpdateAppointment id appointment => snd (updateAppointment id appointment now db)
  | CallDeleteAppointment id => deleteAppointment id db
  | CallAddToQueue queueItem userId => snd (addToQueue queueItem userId now db)
  | CallUpdateQueuePosition id position => snd (updateQueuePosition id position now db)
  | CallUpdateQueueStatus id status => snd (updateQueueStatus id status now db)
  | CallRemoveFromQueue id => removeFromQueue id db
  | CallCreateTransaction transaction userId =>
      snd (createTransaction transaction userId now db)
  | CallDeleteService id => deleteService id db
  end.

Fixpoint runCalls (calls : list (Z * storageCall)) (db : Db) : Db :=
  match calls with
  | [] => db
  | (now, call) :: rest => runCalls rest (applyCall now call db)
  end.

(** The ids of a [serial] table: pairwise distinct and between 1 and the
    last value the sequence gave out. *)
Definition serialIds {A : Type} (id : A -> Z) (rows : list A) (seq : Z) : Prop :=
  NoDup (map id rows) /\ Forall (fun row => 1 <= id row <= seq) rows.

Definition serialOk (db : Db) : Prop :=
  0 <= appointments_id_seq db
  /\ 0 <= queue_id_seq db
  /\ 0 <= transactions_id_seq db
  /\ serialIds Appointment.id (appointments db) (appointments_id_seq db)
  /\ serialIds Queue.id (queue db) (queue_id_seq db)
  /\ serialIds Transaction.id (transactions db) (transactions_id_seq db).

(** The number of rows among [rows] that [userId] owns, and the sum of their
    estimated waits, a row without an estimate adding nothing; both taken
    row by row. *)
Fixpoint entriesIn (userId : string) (rows : list Queue.t) : Z :=
  match rows with
  | [] => 0
  | r :: rest =>
      if string_dec (Queue.userId r) userId
      then 1 + entriesIn userId rest
      else entriesIn userId rest
  end.

Fixpoint estimatesIn (userId : string) (rows : list Queue.t) : Z :=
  match rows with
  | [] => 0
  | r :: rest =>
      match string_dec (Queue.userId r) userId, Queue.estimatedWaitTime r with
      | left _, Some estimate => estimate + estimatesIn userId rest
      | _, _ => estimatesIn userId rest
      end
  end.

(** ** More of the client *)

(** [handleServiceChange] (part_004 lines 391-401).  [serviceId] is
    [parseInt] of the selected value ([None] for NaN, which equals no id);
    the start time is read from the form and an empty one is skipped. *)
Definition handleServiceChange (utcOffset : Z) (isWalkIn : bool)
    (services : option (list Service.t)) (form : FormValues)
    (serviceId : option Z) : completion FormValues :=
  match match serviceId with
        | Some id => findService services id
        | None => None
        end with
  | Some service =>
      if negb isWalkIn then
        match form_startTime form with
        | EmptyString => Normal form
        | WallClock minutes =>
            match toISOString_slice16 (endDate utcOffset (WallClock minutes) service) with
            | Throw e => Throw e
            | Normal s => Normal (setEndTime form s)
            end
        end
      else Normal form
  | None => Normal form
  end.

(** [QueueManagement] (part_004 lines 82-90): the labels of a queue item. *)
Definition getServiceName (services : option (list Service.t)) (serviceId : Z) : string :=
  match findService services serviceId with
  | Some s => if String.eqb (Service.name s) "" then "Unknown Service"
              else Service.name s
  | None => "Unknown Service"
  end.

Definition getServiceDuration (services : option (list Service.t)) (serviceId : Z) : Z :=
  match findService services serviceId with
  | Some s => if Service.duration s =? 0 then 30 else Service.duration s
  | None => 30
  end.

(** ** The client: the cart of [POSModal] (part_004 lines 619-719) *)

Section POS.

(** A JavaScript number that need not be an integer (a price, a total),
    with [Number(decimalText)], which reads a price. *)
Variable number : Type.
Variable Number : Z -> number.

Record CartItem : Type := mkCartItem
  { item_serviceId : Z;
    item_serviceName : string;
    item_price : number;
    item_quantity : Z }.

Definition setQuantity (quantity : Z) (item : CartItem) : CartItem :=
  mkCartItem (item_serviceId item) (item_serviceName item) (item_price item) quantity.

(** [addToCart]: one more of a service already in the cart, else a new
    item of quantity 1 at the end. *)
Definition addToCart (service : Service.t) (cart : list CartItem) : list CartItem :=
  match find (fun item => item_serviceId item =? Service.id service) cart with
  | Some _ =>
      map (fun item => if item_serviceId item =? Service.id service
                       then setQuantity (item_quantity item + 1) item
                       else item)
          cart
  | None =>
      cart ++ [mkCartItem (Service.id service) (Service.name service)
                          (Number (Service.price service)) 1]
  end.

(** [removeFromCart]. *)
Definition removeFromCart (serviceId : Z) (cart : list CartItem) : list CartItem :=
  filter (fun item => negb (item_serviceId item =? serviceId)) cart.

(** [updateQuantity]. *)
Definition updateQuantity (serviceId : Z) (quantity : Z) (cart : list CartItem)
    : list CartItem :=
  if quantity <=? 0 then removeFromCart serviceId cart
  else map (fun item => if item_serviceId item =? serviceId
                        then setQuantity quantity item
                        else item)
           cart.

(** The quantity the cart holds of a service: 0 when it holds none. *)
Definition quantityOf (serviceId : Z) (cart : list CartItem) : Z :=
  fold_right (fun item sum => (if item_serviceId item =? serviceId
                               then item_quantity item else 0) + sum)
             0 cart.

(** What the cart's own operations keep: one item per service, each of
    quantity at least 1. *)
Definition cartOk (cart : list CartItem) : Prop :=
  NoDup (map item_serviceId cart) /\ Forall (fun item => 1 <= item_quantity item) cart.

(** Calls of the three cart functions, and runs of them. *)
Inductive cartCall : Type :=
| CartAdd : Service.t -> cartCall
| CartRemove : Z -> cartCall
| CartUpdate : Z -> Z -> cartCall.

Definition applyCartCall (call : cartCall) (cart : list CartItem) : list CartItem :=
  match call with
  | CartAdd service => addToCart service cart
  | CartRemove serviceId => removeFromCart serviceId cart
  | CartUpdate serviceId quantity => updateQuantity serviceId quantity cart
  end.

Definition runCart (calls : list cartCall) (cart : list CartItem) : list CartItem :=
  fold_left (fun c call => applyCartCall call c) calls cart.

End POS.

Arguments mkCartItem {number} _ _ _ _.
Arguments item_serviceId {number} _.
Arguments item_serviceName {number} _.
Arguments item_price {number} _.
Arguments item_quantity {number} _.
Arguments setQuantity {number} _ _.
Arguments addToCart {number} _ _ _.
Arguments removeFromCart {number} _ _.
Arguments updateQuantity {number} _ _ _.
Arguments quantityOf {number} _ _.
Arguments cartOk {number} _.
Arguments applyCartCall {number} _ _ _.
Arguments runCart {number} _ _ _.

(** ** Onboarding: users, barbers and the subdomain (schema.ts lines 693-768) *)

(** The opening hours of one day and of the week ([businessHours], stored
    as [jsonb]). *)
Record DayHours : Type := mkDayHours
  { day_open : string;
    day_close : string;
    day_closed : bool }.

Record BusinessHours : Type := mkBusinessHours
  { monday : DayHours;
    tuesday : DayHours;
    wednesday : DayHours;
    thursday : DayHours;
    friday : DayHours;
    saturday : DayHours;
    sunday : DayHours }.

Module User.
Record t : Type := mk
  { id : string;
    email : option string;
    firstName : option string;
    lastName : option string;
    profileImageUrl : option string;
    barbershopName : option string;
    phone : option string;
    address : option string;
    subdomain : option string;
    primaryColor : option string;
    secondaryColor : option string;
    bookingStyle : option string;   (* appointment, walk-in, both *)
    logoUrl : option string;
    businessHours : option BusinessHours;
    isOnboarded : option bool;
    createdAt : option Z;
    updatedAt : option Z }.
End User.

Module Barber.
Record t : Type := mk
  { id : Z;
    userId : string;
    name : string;
    email : option string;
    phone : option string;
    profileImageUrl : option string;
    specialties : option (list string);
    bio : option string;
    experience : option Z;   (* years of experience *)
    rating : option Z;       (* hundredths *)
    isActive : option bool;
    createdAt : option Z;
    updatedAt : option Z }.
End Barber.

(** [insertBarberSchema]. *)
Module InsertBarber.
Record t : Type := mk
  { name : string;
    email : optional string;
    phone : optional string;
    profileImageUrl : optional string;
    specialties : optional (list string);
    bio : optional string;
    experience : optional Z;
    rating : optional Z;
    isActive : optional bool }.
End InsertBarber.

(** An element of [onboardingSchema]'s [barbers]; an optional key that is
    absent is [None]; [experience], a [z.number()], is taken to hold a whole
    number. *)
Module OnboardingBarber.
Record t : Type := mk
  { name : string;
    email : option string;
    phone : option string;
    specialties : list string;
    bio : option string;
    experience : option Z }.
End OnboardingBarber.

(** [OnboardingData]. *)
Module OnboardingData.
Record t : Type := mk
  { barbershopName : string;
    address : string;
    phone : string;
    bookingStyle : string;
    primaryColor : string;
    secondaryColor : string;
    logoUrl : option string;
    businessHours : BusinessHours;
    barbers : list OnboardingBarber.t }.
End OnboardingData.

(** The tables of accounts. *)
Record Accounts : Type := mkAccounts
  { users : list User.t;
    barbers : list Barber.t;
    barbers_id_seq : Z }.

(** [String.prototype.toLowerCase] on a character of a business name given
    in ASCII; a byte above 127 is left alone. *)
Definition toLowerCase (c : ascii) : ascii :=
  let n := nat_of_ascii c in
  if (65 <=? n)%nat && (n <=? 90)%nat then ascii_of_nat (n + 32) else c.

(** The class [[a-z0-9]]. *)
Definition isLowerAlnum (c : ascii) : bool :=
  let n := nat_of_ascii c in
  ((97 <=? n)%nat && (n <=? 122)%nat) || ((48 <=? n)%nat && (n <=? 57)%nat).

(** [businessName.toLowerCase().replace(/[^a-z0-9]/g, '').slice(0, 20)]. *)
Definition baseSubdomain (businessName : string) : string :=
  string_of_list_ascii
    (firstn 20 (filter isLowerAlnum (map toLowerCase (list_ascii_of_string businessName)))).

(** [`${counter}`] for a counter that is a positive integer. *)
Definition decimal (counter : Z) : string :=
  NilZero.string_of_int (Z.to_int counter).

(** [select().from(users).where(eq(users.subdomain, subdomain))], first row. *)
Definition userWithSubdomain (subdomain : string) (users : list User.t) : option User.t :=
  hd_error (filter (fun u => match User.subdomain u with
                             | Some s => String.eqb s subdomain
                             | None => false
                             end)
                   users).

(** The [while (true)] loop of [generateSubdomain], run for at most [fuel]
    iterations: [None] when they do not suffice. *)
Fixpoint generateSubdomainLoop (fuel : nat) (users : list User.t) (baseSubdomain : string)
    (subdomain : string) (counter : Z) : option string :=
  match fuel with
  | O => None
  | S fuel' =>
      match userWithSubdomain subdomain users with
      | None => Some subdomain
      | Some _ =>
          generateSubdomainLoop fuel' users baseSubdomain
            (baseSubdomain ++ decimal counter)%string (counter + 1)
      end
  end.

(** [generateSubdomain]. *)
Definition generateSubdomain (fuel : nat) (users : list User.t) (businessName : string)
    : option string :=
  generateSubdomainLoop fuel users (baseSubdomain businessName)
    (baseSubdomain businessName) 1.

(** What a call of the storage gives: the value it returns, or nothing
    when a statement of it throws. *)
Inductive attempt (A : Type) : Type :=
| Returned : A -> attempt A
| Thrown : attempt A.

Arguments Returned {A} _.
Arguments Thrown {A}.

(** [references(() => users.id)]: some user has the id. *)
Definition userExists (userId : string) (accounts : Accounts) : bool :=
  existsb (fun u => String.eqb (User.id u) userId) (users accounts).

(** What the columns of [barbers] hold: [experience] is an [integer],
    [rating] a [decimal(3, 2)], below 10 in absolute value. *)
Definition barberFits (barber : InsertBarber.t) : bool :=
  int4Key (InsertBarber.experience barber)
  && match InsertBarber.rating barber with
     | Value hundredths => (-999 <=? hundredths) && (hundredths <=? 999)
     | _ => true
     end.

(** [createBarber] (lines 693-699):
    [insert(barbers).values({ ...barber, userId }).returning()].  A value
    that does not fit its column is refused before the statement runs; a
    row whose [user_id] names no user is refused once it is formed, its id
    drawn from the sequence already.  Either way the call throws. *)
Definition createBarber (barber : InsertBarber.t) (userId : string) (now : Z)
    (accounts : Accounts) : attempt Barber.t * Accounts :=
  let newBarber :=
    Barber.mk
      (barbers_id_seq accounts + 1)
      userId
      (InsertBarber.name barber)
      (columnValue None (InsertBarber.email barber))
      (columnValue None (InsertBarber.phone barber))
      (columnValue None (InsertBarber.profileImageUrl barber))
      (columnValue (Some []) (InsertBarber.specialties barber))
      (columnValue None (InsertBarber.bio barber))
      (columnValue None (InsertBarber.experience barber))
      (columnValue (Some 0) (InsertBarber.rating barber))
      (columnValue (Some true) (InsertBarber.isActive barber))
      (Some now)
      (Some now) in
  if barberFits barber then
    if userExists userId accounts then
      (Returned newBarber,
       mkAccounts (users accounts) (barbers accounts ++ [newBarber])
                  (barbers_id_seq accounts + 1))
    else
      (Thrown,
       mkAccounts (users accounts) (barbers accounts) (barbers_id_seq accounts + 1))
  else (Thrown, accounts).

(** An optional key of a parsed object as a key of an insert object. *)
Definition ofOption {A : Type} (o : option A) : optional A :=
  match o with
  | Some a => Value a
  | None => Undefined
  end.

(** An onboarding barber seen as the insert object [createBarber] is given. *)
Definition barberData (b : OnboardingBarber.t) : InsertBarber.t :=
  InsertBarber.mk
    (OnboardingBarber.name b)
    (ofOption (OnboardingBarber.email b))
    (ofOption (OnboardingBarber.phone b))
    Undefined
    (Value (OnboardingBarber.specialties b))
    (ofOption (OnboardingBarber.bio b))
    (ofOption (OnboardingBarber.experience b))
    Undefined
    Undefined.

(** The [.set({...})] of [completeOnboarding]; an absent [logoUrl] leaves
    the column as it is. *)
Definition setOnboarded (subdomain : string) (data : OnboardingData.t) (now : Z)
    (row : User.t) : User.t :=
  User.mk
    (User.id row)
    (User.email row)
    (User.firstName row)
    (User.lastName row)
    (User.profileImageUrl row)
    (Some (OnboardingData.barbershopName data))
    (Some (OnboardingData.phone data))
    (Some (OnboardingData.address data))
    (Some subdomain)
    (Some (OnboardingData.primaryColor data))
    (Some (OnboardingData.secondaryColor data))
    (Some (OnboardingData.bookingStyle data))
    (match OnboardingData.logoUrl data with
     | Some url => Some url
     | None => User.logoUrl row
     end)
    (Some (OnboardingData.businessHours data))
    (Some true)
    (User.createdAt row)
    (Some now).

(** [for (const barberData of data.barbers) await this.createBarber(barberData, userId)]:
    the loop ends at the first call that throws; what the calls before it
    stored stays. *)
Fixpoint createBarbers (barbersData : list OnboardingBarber.t) (userId : string)
    (now : Z) (accounts : Accounts) : attempt unit * Accounts :=
  match barbersData with
  | [] => (Returned tt, accounts)
  | b :: rest =>
      match createBarber (barberData b) userId now accounts with
      | (Returned _, accounts') => createBarbers rest userId now accounts'
      | (Thrown, accounts') => (Thrown, accounts')
      end
  end.

(** [completeOnboarding] (lines 715-742): [None] when the subdomain loop is
    given too little fuel; otherwise the tables the call leaves and what it
    gives: the updated user, [undefined] when no row has the id, or nothing
    when the barber loop throws.  The statements run one by one, outside any
    transaction, so the update of the user stays when the loop throws. *)
Definition completeOnboarding (fuel : nat) (userId : string) (data : OnboardingData.t)
    (now : Z) (accounts : Accounts) : option (attempt (option User.t) * Accounts) :=
  match generateSubdomain fuel (users accounts) (OnboardingData.barbershopName data) with
  | None => None
  | Some subdomain =>
      let rows :=
        map (fun row => if String.eqb (User.id row) userId
                        then setOnboarded subdomain data now row else row)
            (users accounts) in
      let updatedUser :=
        hd_error (filter (fun row => String.eqb (User.id row) userId) rows) in
      match createBarbers (OnboardingData.barbers data) userId now
              (mkAccounts rows (barbers accounts) (barbers_id_seq accounts)) with
      | (Returned _, accounts') => Some (Returned updatedUser, accounts')
      | (Thrown, accounts') => Some (Thrown, accounts')
      end
  end.

(** The subdomains in use. *)
Definition subdomains (users : list User.t) : list string :=
  flat_map (fun u => match User.subdomain u with
                     | Some s => [s]
                     | None => []
                     end)
           users.

(** The names the loop of [generateSubdomain] tries, in order: the base,
    then the base followed by 1, 2, ... *)
Definition candidate (baseSubdomain : string) (k : nat) : string :=
  match k with
  | O => baseSubdomain
  | S _ => (baseSubdomain ++ decimal (Z.of_nat k))%string
  end.

(** Example accounts: a user who took "cutz", one who took "cutz1", and
    one not yet onboarded. *)
Definition plainUser (id : string) (subdomain : option string) : User.t :=
  User.mk id None None None None None None None subdomain
    (Some "#3b82f6") (Some "#1e40af") (Some "both") None None (Some false)
    (Some 0) (Some 0).

Definition threeUsers : Accounts :=
  mkAccounts [plainUser "u1" (Some "cutz"); plainUser "u2" (Some "cutz1");
              plainUser "u3" None]
             [] 0.

Definition allDay : DayHours := mkDayHours "09:00" "17:00" false.

Definition cutzData : OnboardingData.t :=
  OnboardingData.mk "Cutz!" "1 Main St" "555-0100" "both" "#000000" "#ffffff" None
    (mkBusinessHours allDay allDay allDay allDay allDay allDay allDay)
    [OnboardingBarber.mk "Sam" None None [] None None].

(** Three barbers, the second with an experience no [integer] column holds. *)
Definition threeBarbers : list OnboardingBarber.t :=
  [OnboardingBarber.mk "Sam" None None [] None (Some 3);
   OnboardingBarber.mk "Kim" None None [] None (Some 4294967296);
   OnboardingBarber.mk "Lou" None None [] None None].

(** * Properties *)

(** ** Lists *)

Section ListFacts.

Context {A : Type}.

Lemma filter_filter_comm (f g : A -> bool) (l : list A) :
  filter f (filter g l) = filter g (filter f l).
Proof.
  induction l as [|x l IH]; simpl; [reflexivity|].
  destruct (g x) eqn:Hg, (f x) eqn:Hf; simpl; rewrite ?Hg, ?Hf, IH; reflexivity.
Qed.

Lemma filter_true_on (f : A -> bool) (l : list A) :
  (forall x, In x l -> f x = true) -> filter f l = l.
Proof.
  induction l as [|x l IH]; simpl; intros H; [reflexivity|].
  rewrite (H x (or_introl eq_refl)), IH; [reflexivity|].
  intros y Hy. apply H. right. exact Hy.
Qed.

Lemma filter_map_same (f : A -> bool) (g : A -> A) (l : list A) :
  (forall x, f (g x) = f x) -> filter f (map g l) = map g (filter f l).
Proof.
  intros H. induction l as [|x l IH]; simpl; [reflexivity|].
  rewrite H. destruct (f x); simpl; rewrite IH; reflexivity.
Qed.

End ListFacts.

(** ** Dense lists of positions *)

Lemma denseList_nil : denseList [].
Proof. intros p. simpl. lia. Qed.

Lemma denseList_NoDup (positions : list Z) :
  denseList positions -> NoDup positions.
Proof.
  intros H.
  apply (@NoDup_incl_NoDup Z (map Z.of_nat (seq 1 (List.length positions)))).
  - apply Finite.Injective_map_NoDup.
    + intros a b Hab. lia.
    + apply seq_NoDup.
  - rewrite length_map, length_seq. apply Nat.le_refl.
  - intros p Hp. apply in_map_iff in Hp. destruct Hp as [k [<- Hk]].
    apply in_seq in Hk. apply H. lia.
Qed.

Lemma denseList_snoc (positions : list Z) :
  denseList positions ->
  denseList (positions ++ [Z.of_nat (List.length positions) + 1]).
Proof.
  intros H p. rewrite in_app_iff, length_app. simpl.
  rewrite (H p). split.
  - intros [Hp | [Hp | []]]; lia.
  - intros Hp.
    destruct (Z.eq_dec p (Z.of_nat (List.length positions) + 1)) as [-> | Hne].
    + right. left. reflexivity.
    + left. lia.
Qed.

Lemma denseListb_true_iff (positions : list Z) :
  denseListb positions = true <-> denseList positions.
Proof.
  unfold denseListb, denseList.
  rewrite andb_true_iff, !forallb_forall. split.
  - intros [Hin Hall] p. split.
    + intros Hp. specialize (Hin p Hp). lia.
    + intros Hp.
      assert (Hk : In (Z.to_nat p) (seq 1 (List.length positions)))
        by (apply in_seq; lia).
      specialize (Hall _ Hk). apply existsb_exists in Hall.
      destruct Hall as [q [Hq Heq]]. apply Z.eqb_eq in Heq.
      replace p with q by lia. exact Hq.
  - intros H. split.
    + intros p Hp. apply H in Hp. lia.
    + intros k Hk. apply in_seq in Hk. apply existsb_exists.
      exists (Z.of_nat k). split; [apply H; lia | apply Z.eqb_refl].
Qed.

(** Dropping the rows with one id from a line whose positions are pairwise
    distinct, when every row with that id sits at position [n]: exactly the
    position [n] goes, and one row with it. *)
Lemma remove_at_position (t n : Z) (rows : list Queue.t) :
  NoDup (map Queue.position rows) ->
  (forall r, In r rows -> Queue.id r = t -> Queue.position r = n) ->
  (exists r, In r rows /\ Queue.id r = t) ->
  let rows' := filter (fun row => negb (Queue.id row =? t)) rows in
  (forall p, In p (map Queue.position rows') <->
             In p (map Queue.position rows) /\ p <> n)
  /\ S (List.length rows') = List.length rows.
Proof.
  induction rows as [|x rows IH]; simpl; intros Hnd Hpos Hex.
  - destruct Hex as [r [[] _]].
  - apply NoDup_cons_iff in Hnd. destruct Hnd as [Hx Hnd].
    destruct (Queue.id x =? t) eqn:Hid; simpl.
    + apply Z.eqb_eq in Hid.
      assert (Hxn : Queue.position x = n) by (apply Hpos; auto).
      assert (Hnone : forall r, In r rows -> negb (Queue.id r =? t) = true).
      { intros r Hr. destruct (Queue.id r =? t) eqn:Hr'; [|reflexivity].
        apply Z.eqb_eq in Hr'. exfalso. apply Hx.
        rewrite Hxn, <- (Hpos r (or_intror Hr) Hr').
        apply in_map. exact Hr. }
      rewrite (filter_true_on _ _ Hnone). split; [|reflexivity].
      intros p. split.
      * intros Hp. split; [right; exact Hp|]. intros ->. apply Hx.
        rewrite Hxn. exact Hp.
      * intros [[Hp | Hp] Hne]; [congruence | exact Hp].
    + apply Z.eqb_neq in Hid.
      destruct IH as [IHin IHlen].
      * exact Hnd.
      * intros r Hr. apply Hpos. right. exact Hr.
      * destruct Hex as [r [[-> | Hr] Hrt]]; [contradiction|]. exists r. auto.
      * split; [|simpl; rewrite IHlen; reflexivity].
        intros p. rewrite IHin. split.
        -- intros [Hp | [Hp Hne]]; [|tauto]. split; [left; exact Hp|].
           intros ->. destruct Hex as [r [[-> | Hr] Hrt]]; [contradiction|].
           apply Hx. rewrite Hp, <- (Hpos r (or_intror Hr) Hrt).
           apply in_map. exact Hr.
        -- tauto.
Qed.

Lemma find_none_on {A : Type} (f : A -> bool) (l : list A) :
  (forall x, In x l -> f x = false) -> find f l = None.
Proof.
  induction l as [|x l IH]; simpl; intros H; [reflexivity|].
  rewrite (H x (or_introl eq_refl)). apply IH.
  intros y Hy. apply H. right. exact Hy.
Qed.


(** ** The line under the three mutations *)

Lemma liveOf_addToQueue (u : string) (queueItem : InsertQueue.t) (v : string)
    (now : Z) (db : Db) :
  liveOf u (snd (addToQueue queueItem v now db)) =
  liveOf u db
  ++ (if String.eqb v u && nonTerminal (fst (addToQueue queueItem v now db))
      then [fst (addToQueue queueItem v now db)] else []).
Proof.
  unfold liveOf, queueOf, addToQueue. simpl.
  rewrite !filter_app. simpl.
  destruct (String.eqb v u); simpl; [|reflexivity].
  destruct (nonTerminal _); reflexivity.
Qed.

Lemma liveOf_updateQueueWhereId (u : string) (id : Z) (set : Queue.t -> Queue.t)
    (db : Db) :
  (forall row, Queue.userId (set row) = Queue.userId row) ->
  (forall row, Queue.status (set row) = Queue.status row) ->
  liveOf u (snd (updateQueueWhereId id set db)) =
  map (fun row => if Queue.id row =? id then set row else row) (liveOf u db).
Proof.
  intros Hu Hs. unfold liveOf, queueOf, updateQueueWhereId. simpl.
  rewrite filter_map_same.
  - rewrite filter_map_same; [reflexivity|].
    intros row. unfold nonTerminal.
    destruct (Queue.id row =? id); [rewrite Hs|]; reflexivity.
  - intros row. destruct (Queue.id row =? id); [rewrite Hu|]; reflexivity.
Qed.

Lemma liveOf_removeFromQueue (u : string) (id : Z) (db : Db) :
  liveOf u (removeFromQueue id db) =
  filter (fun row => negb (Queue.id row =? id)) (liveOf u db).
Proof.
  unfold liveOf, queueOf, removeFromQueue. simpl.
  rewrite (filter_filter_comm _ (fun row => negb (Queue.id row =? id))).
  rewrite (filter_filter_comm nonTerminal). reflexivity.
Qed.

Lemma liveOf_In (u : string) (db : Db) (r : Queue.t) :
  In r (liveOf u db) <->
  In r (queue db) /\ Queue.userId r = u /\ nonTerminal r = true.
Proof.
  unfold liveOf, queueOf. rewrite !filter_In, String.eqb_eq. tauto.
Qed.

Lemma dense_admit (u : string) (queueItem : InsertQueue.t) (v : string)
    (now : Z) (db : Db) :
  dense u db ->
  keepsDense db (Admit queueItem v) = true ->
  dense u (applyOp now (Admit queueItem v) db).
Proof.
  unfold dense, livePositions.
  change (applyOp now (Admit queueItem v) db)
    with (snd (addToQueue queueItem v now db)).
  intros Hd Hk. rewrite liveOf_addToQueue.
  destruct (String.eqb v u) eqn:Hvu; simpl;
    [|rewrite app_nil_r; exact Hd].
  apply String.eqb_eq in Hvu. subst v.
  unfold nonTerminal at 1. simpl Queue.status.
  simpl in Hk. apply orb_true_iff in Hk.
  destruct (statusIs (columnValue (Some "waiting") (InsertQueue.status queueItem))
                     "completed") eqn:Hc; simpl.
  - rewrite app_nil_r. exact Hd.
  - destruct Hk as [Hk | Hk]; [discriminate|].
    apply Z.eqb_eq in Hk. rewrite map_app. simpl map. rewrite Hk.
    unfold liveCount. rewrite <- (length_map Queue.position).
    apply denseList_snoc. exact Hd.
Qed.

Lemma livePositions_reposition (u : string) (id position : Z) (now : Z) (db : Db) :
  keepsDense db (Reposition id position) = true ->
  livePositions u (applyOp now (Reposition id position) db) = livePositions u db.
Proof.
  change (applyOp now (Reposition id position) db)
    with (snd (updateQueueWhereId id (setPosition position now) db)).
  simpl keepsDense. intros Hk. rewrite forallb_forall in Hk.
  unfold livePositions.
  rewrite liveOf_updateQueueWhereId by reflexivity.
  rewrite map_map. apply map_ext_in. intros r Hr.
  apply liveOf_In in Hr. destruct Hr as [Hin [_ Hnt]].
  specialize (Hk r Hin). rewrite Hnt in Hk.
  destruct (Queue.id r =? id); simpl in *; [|reflexivity].
  apply Z.eqb_eq in Hk. symmetry. exact Hk.
Qed.

Lemma dense_remove (u : string) (id : Z) (now : Z) (db : Db) :
  dense u db ->
  keepsDense db (Remove id) = true ->
  dense u (applyOp now (Remove id) db).
Proof.
  unfold dense, livePositions.
  change (applyOp now (Remove id) db) with (removeFromQueue id db).
  simpl keepsDense. intros Hd Hk.
  rewrite forallb_forall in Hk.
  rewrite liveOf_removeFromQueue.
  destruct (existsb (fun r => Queue.id r =? id) (liveOf u db)) eqn:Hex.
  - apply existsb_exists in Hex. destruct Hex as [r0 [Hr0 Hid0]].
    apply Z.eqb_eq in Hid0.
    destruct (remove_at_position id (liveCount u db) (liveOf u db)) as [Hin Hlen].
    + apply denseList_NoDup. exact Hd.
    + intros r Hr Hid. apply liveOf_In in Hr. destruct Hr as [Hq [Hu Hnt]].
      specialize (Hk r Hq). rewrite Hnt, Hu in Hk.
      apply Z.eqb_eq in Hid. rewrite Hid in Hk. simpl in Hk.
      apply Z.eqb_eq. exact Hk.
    + exists r0. auto.
    + intros p. rewrite Hin, (Hd p), !length_map.
      unfold liveCount. lia.
  - rewrite filter_true_on; [exact Hd|].
    intros r Hr. destruct (Queue.id r =? id) eqn:Hid; [|reflexivity].
    exfalso. assert (Ht : existsb (fun r => Queue.id r =? id) (liveOf u db) = true)
      by (apply existsb_exists; exists r; auto).
    congruence.
Qed.

Lemma dense_applyOp (u : string) (now : Z) (op : queueOp) (db : Db) :
  dense u db -> keepsDense db op = true -> dense u (applyOp now op db).
Proof.
  destruct op as [queueItem v | id position | id]; intros Hd Hk.
  - apply dense_admit; assumption.
  - unfold dense. rewrite livePositions_reposition; assumption.
  - apply dense_remove; assumption.
Qed.

Lemma dense_emptyDb (u : string) : dense u emptyDb.
Proof. exact denseList_nil. Qed.

(** C1 (as amended).  The store never renumbers.  From a store in which
    every tenant's line is dense, a run of admit, reposition and remove calls
    leaves every tenant's line dense provided each call, in the store it
    meets, is one of: an admission whose supplied position is N + 1 (or whose
    status is completed), a reposition of a non-terminal entry to its own
    position, a removal of the entry at position N of its tenant's line (or
    of a completed entry). *)
Theorem density_preserved_by_conforming_calls
    (calls : list (Z * queueOp)) (db : Db) :
  (forall u, dense u db) ->
  allKeepDense db calls = true ->
  forall u, dense u (run calls db).
Proof.
  revert db. induction calls as [|[now op] rest IH]; simpl; intros db Hd Hk u.
  - apply Hd.
  - apply andb_true_iff in Hk. destruct Hk as [Hop Hrest].
    apply IH; [|exact Hrest].
    intros v. apply dense_applyOp; [apply Hd | exact Hop].
Qed.

(** A conforming run: three admissions at positions 1, 2, 3, a reposition of
    entry 2 to position 2, and the removal of entry 3, the last of the line. *)
Lemma density_preserved_by_conforming_calls_witness :
  (forall u, dense u emptyDb)
  /\ allKeepDense emptyDb
       [(10, Admit (walkIn 1 0) "shop"); (20, Admit (walkIn 2 30) "shop");
        (30, Admit (walkIn 3 60) "shop"); (40, Reposition 2 2); (50, Remove 3)] = true
  /\ livePositions "shop"
       (run [(10, Admit (walkIn 1 0) "shop"); (20, Admit (walkIn 2 30) "shop");
             (30, Admit (walkIn 3 60) "shop"); (40, Reposition 2 2); (50, Remove 3)]
            emptyDb) = [1; 2]
  /\ forall u,
       dense u
         (run [(10, Admit (walkIn 1 0) "shop"); (20, Admit (walkIn 2 30) "shop");
               (30, Admit (walkIn 3 60) "shop"); (40, Reposition 2 2); (50, Remove 3)]
              emptyDb).
Proof.
  split; [exact dense_emptyDb|].
  split; [vm_compute; reflexivity|].
  split; [vm_compute; reflexivity|].
  apply (density_preserved_by_conforming_calls
           [(10, Admit (walkIn 1 0) "shop"); (20, Admit (walkIn 2 30) "shop");
            (30, Admit (walkIn 3 60) "shop"); (40, Reposition 2 2); (50, Remove 3)]
           emptyDb dense_emptyDb).
  vm_compute. reflexivity.
Defined.

(** C1 as stated fails: after three admissions at positions 1, 2, 3, removing
    the entry at position 2 leaves the positions 1 and 3. *)
Lemma density_broken_by_remove :
  denseb "shop" threeWaiting = true
  /\ livePositions "shop" (run [(40, Remove 2)] threeWaiting) = [1; 3]
  /\ denseb "shop" (run [(40, Remove 2)] threeWaiting) = false
  /\ ~ dense "shop" (run [(40, Remove 2)] threeWaiting).
Proof.
  split; [vm_compute; reflexivity|].
  split; [vm_compute; reflexivity|].
  split; [vm_compute; reflexivity|].
  intros H. apply denseListb_true_iff in H. vm_compute in H. discriminate.
Qed.
(** ** Updates and removals addressed by id *)

Lemma hd_error_filter {A : Type} (f : A -> bool) (l : list A) :
  (exists x, In x l /\ f x = true) ->
  exists y, hd_error (filter f l) = Some y /\ In y l /\ f y = true.
Proof.
  intros [x [Hx Hf]].
  assert (Hin : In x (filter f l)) by (apply filter_In; auto).
  destruct (filter f l) as [|y rest] eqn:E; [destruct Hin|].
  exists y. split; [reflexivity|].
  apply filter_In. rewrite E. left. reflexivity.
Qed.

Lemma hd_error_filter_none {A : Type} (f : A -> bool) (l : list A) :
  (forall x, In x l -> f x = false) -> hd_error (filter f l) = None.
Proof.
  intros H. induction l as [|x l IH]; simpl; [reflexivity|].
  rewrite (H x (or_introl eq_refl)). apply IH.
  intros y Hy. apply H. right. exact Hy.
Qed.

(** What [update(queue).set(...).where(eq(queue.id, id)).returning()] does,
    for a [set] that keeps the id. *)
Lemma updateQueueWhereId_spec (id : Z) (set : Queue.t -> Queue.t) (db : Db) :
  (forall row, Queue.id (set row) = Queue.id row) ->
  (forall r, In r (queue db) -> Queue.id r <> id ->
             In r (queue (snd (updateQueueWhereId id set db))))
  /\ (forall r, In r (queue db) -> Queue.id r = id ->
                In (set r) (queue (snd (updateQueueWhereId id set db)))
                /\ exists r0, In r0 (queue db) /\ Queue.id r0 = id
                              /\ fst (updateQueueWhereId id set db) = Some (set r0))
  /\ ((forall r, In r (queue db) -> Queue.id r <> id) ->
      fst (updateQueueWhereId id set db) = None
      /\ queue (snd (updateQueueWhereId id set db)) = queue db)
  /\ map Queue.id (queue (snd (updateQueueWhereId id set db))) = map Queue.id (queue db).
Proof.
  intros Hset. unfold updateQueueWhereId. simpl.
  split; [|split; [|split]].
  - intros r Hr Hne. apply in_map_iff. exists r. split; [|exact Hr].
    apply Z.eqb_neq in Hne. rewrite Hne. reflexivity.
  - intros r Hr He. split.
    + apply in_map_iff. exists r. split; [|exact Hr].
      apply Z.eqb_eq in He. rewrite He. reflexivity.
    + destruct (hd_error_filter (fun row => Queue.id row =? id)
                  (map (fun row => if Queue.id row =? id then set row else row)
                       (queue db))) as [y [Hy [Hin Hid]]].
      * exists (set r). split.
        -- apply in_map_iff. exists r. split; [|exact Hr].
           apply Z.eqb_eq in He. rewrite He. reflexivity.
        -- rewrite Hset. apply Z.eqb_eq. exact He.
      * apply in_map_iff in Hin. destruct Hin as [r0 [Hr0 Hin0]].
        destruct (Queue.id r0 =? id) eqn:E.
        -- exists r0. apply Z.eqb_eq in E. rewrite Hy, <- Hr0. auto.
        -- subst y. congruence.
  - intros Hnone. split.
    + apply hd_error_filter_none. intros x Hx.
      apply in_map_iff in Hx. destruct Hx as [r [<- Hr]].
      pose proof (Hnone r Hr) as Hne. apply Z.eqb_neq in Hne.
      rewrite Hne. exact Hne.
    + rewrite <- (map_id (queue db)) at 2. apply map_ext_in.
      intros r Hr. pose proof (Hnone r Hr) as Hne. apply Z.eqb_neq in Hne.
      rewrite Hne. reflexivity.
  - rewrite map_map. apply map_ext. intros r.
    destruct (Queue.id r =? id); [apply Hset | reflexivity].
Qed.

Lemma updateAppointment_returns (id : Z) (appointment : PartialAppointment.t)
    (now : Z) (db : Db) (a : Appointment.t) :
  In a (appointments db) -> Appointment.id a = id ->
  In (setAppointment appointment now a)
     (appointments (snd (updateAppointment id appointment now db)))
  /\ exists a0, In a0 (appointments db) /\ Appointment.id a0 = id
                /\ fst (updateAppointment id appointment now db)
                   = Some (setAppointment appointment now a0).
Proof.
  intros Ha He. unfold updateAppointment. simpl.
  assert (Hin : In (setAppointment appointment now a)
                   (map (fun row => if Appointment.id row =? id
                                    then setAppointment appointment now row else row)
                        (appointments db))).
  { apply in_map_iff. exists a. split; [|exact Ha].
    apply Z.eqb_eq in He. rewrite He. reflexivity. }
  split; [exact Hin|].
  destruct (hd_error_filter (fun row => Appointment.id row =? id) _
              (ex_intro _ _ (conj Hin (proj2 (Z.eqb_eq _ _) He))))
    as [y [Hy [Hiny Hid]]].
  apply in_map_iff in Hiny. destruct Hiny as [a0 [Ha0 Hin0]].
  destruct (Appointment.id a0 =? id) eqn:E.
  - exists a0. apply Z.eqb_eq in E. rewrite Hy, <- Ha0. auto.
  - subst y. congruence.
Qed.

(** ** What the handlers accept and refuse *)

Lemma int4_iff (n : Z) :
  int4 n = true <-> -2147483648 <= n <= 2147483647.
Proof. unfold int4. rewrite andb_true_iff, !Z.leb_le. tauto. Qed.

Lemma customerExists_iff (id : Z) (db : Db) :
  customerExists id db = true
  <-> exists c, In c (customers db) /\ Customer.id c = id.
Proof.
  unfold customerExists. rewrite existsb_exists.
  split; intros [c [Hc He]]; exists c; split; try exact Hc;
    [apply Z.eqb_eq | apply Z.eqb_eq]; exact He.
Qed.

Lemma serviceExists_iff (id : Z) (db : Db) :
  serviceExists id db = true
  <-> exists s, In s (services db) /\ Service.id s = id.
Proof.
  unfold serviceExists. rewrite existsb_exists.
  split; intros [c [Hc He]]; exists c; split; try exact Hc;
    [apply Z.eqb_eq | apply Z.eqb_eq]; exact He.
Qed.

Lemma queueInsertAccepted_iff (queueItem : InsertQueue.t) (db : Db) :
  queueInsertAccepted queueItem db = true
  <-> (-2147483648 <= InsertQueue.customerId queueItem <= 2147483647
       /\ -2147483648 <= InsertQueue.serviceId queueItem <= 2147483647
       /\ -2147483648 <= InsertQueue.position queueItem <= 2147483647
       /\ (forall w, InsertQueue.estimatedWaitTime queueItem = Value w ->
                     -2147483648 <= w <= 2147483647))
      /\ (exists c, In c (customers db)
                    /\ Customer.id c = InsertQueue.customerId queueItem)
      /\ (exists s, In s (services db)
                    /\ Service.id s = InsertQueue.serviceId queueItem).
Proof.
  unfold queueInsertAccepted, queueInsertFits, queueReferencesExist.
  rewrite !andb_true_iff, !int4_iff, customerExists_iff, serviceExists_iff.
  assert (Hw : int4Key (InsertQueue.estimatedWaitTime queueItem) = true
               <-> forall w, InsertQueue.estimatedWaitTime queueItem = Value w ->
                             -2147483648 <= w <= 2147483647).
  { destruct (InsertQueue.estimatedWaitTime queueItem) as [| |w0]; simpl.
    - split; [intros _ w H; discriminate H | reflexivity].
    - split; [intros _ w H; discriminate H | reflexivity].
    - rewrite int4_iff. split.
      + intros H w Hw. injection Hw as <-. exact H.
      + intros H. apply H. reflexivity. }
  rewrite Hw. tauto.
Qed.

Lemma POST_api_queue_accepted (caller : string) (queueData : InsertQueue.t)
    (now : Z) (db : Db) :
  queueInsertAccepted queueData db = true ->
  POST_api_queue caller queueData now db
  = (Json (fst (addToQueue queueData caller now db)),
     snd (addToQueue queueData caller now db)).
Proof. intros H. unfold POST_api_queue. rewrite H. reflexivity. Qed.

Lemma POST_api_queue_refused (caller : string) (queueData : InsertQueue.t)
    (now : Z) (db : Db) :
  queueInsertAccepted queueData db = false ->
  POST_api_queue caller queueData now db
  = (Status500 "Failed to add to queue", refusedQueueInsert queueData db).
Proof. intros H. unfold POST_api_queue. rewrite H. reflexivity. Qed.

(** A refused insert leaves every table as it was. *)
Lemma refusedQueueInsert_tables (queueData : InsertQueue.t) (db : Db) :
  customers (refusedQueueInsert queueData db) = customers db
  /\ services (refusedQueueInsert queueData db) = services db
  /\ appointments (refusedQueueInsert queueData db) = appointments db
  /\ queue (refusedQueueInsert queueData db) = queue db
  /\ transactions (refusedQueueInsert queueData db) = transactions db.
Proof.
  unfold refusedQueueInsert. destruct (queueInsertFits queueData); repeat split.
Qed.

Lemma PUT_api_queue_position_fits (caller : string) (queueId position now : Z) (db : Db) :
  int4 position = true ->
  PUT_api_queue_position caller queueId position now db
  = (Json (fst (updateQueuePosition queueId position now db)),
     snd (updateQueuePosition queueId position now db)).
Proof.
  intros H. unfold PUT_api_queue_position. rewrite H.
  destruct (updateQueuePosition queueId position now db). reflexivity.
Qed.

Lemma PUT_api_queue_position_refused (caller : string) (queueId position now : Z)
    (db : Db) :
  int4 position = false ->
  PUT_api_queue_position caller queueId position now db
  = (Status500 "Failed to update queue position", db).
Proof. intros H. unfold PUT_api_queue_position. rewrite H. reflexivity. Qed.

Lemma PUT_api_appointments_accepted (caller : string) (appointmentId : Z)
    (appointmentData : PartialAppointment.t) (now : Z) (db : Db) :
  partialAppointmentParses appointmentData = true ->
  appointmentUpdateAccepted appointmentData db = true ->
  PUT_api_appointments caller appointmentId appointmentData now db
  = (Json (fst (updateAppointment appointmentId appointmentData now db)),
     snd (updateAppointment appointmentId appointmentData now db)).
Proof.
  intros H1 H2. unfold PUT_api_appointments. rewrite H1, H2.
  destruct (updateAppointment appointmentId appointmentData now db). reflexivity.
Qed.

Lemma PUT_api_appointments_refused (caller : string) (appointmentId : Z)
    (appointmentData : PartialAppointment.t) (now : Z) (db : Db) :
  partialAppointmentParses appointmentData
  && appointmentUpdateAccepted appointmentData db = false ->
  PUT_api_appointments caller appointmentId appointmentData now db
  = (Status500 "Failed to update appointment", db).
Proof. intros H. unfold PUT_api_appointments. rewrite H. reflexivity. Qed.

Lemma PUT_api_appointments_statusPatch (caller : string) (appointmentId : Z)
    (status : string) (now : Z) (db : Db) :
  PUT_api_appointments caller appointmentId (statusPatch status) now db
  = (Json (fst (updateAppointment appointmentId (statusPatch status) now db)),
     snd (updateAppointment appointmentId (statusPatch status) now db)).
Proof. apply PUT_api_appointments_accepted; reflexivity. Qed.

(** No JSON body passes [insertAppointmentSchema]. *)
Lemma insertAppointmentSchema_parse_None (body : AppointmentBody.t) :
  insertAppointmentSchema_parse body = None.
Proof.
  unfold insertAppointmentSchema_parse.
  destruct (AppointmentBody.startTime body) as [[s|s|]|];
    destruct (AppointmentBody.endTime body) as [[e|e|]|]; reflexivity.
Qed.

Lemma POST_api_appointments_refused (caller : string) (body : AppointmentBody.t)
    (now : Z) (db : Db) :
  POST_api_appointments caller body now db
  = (Status500 "Failed to create appointment", db).
Proof.
  unfold POST_api_appointments. rewrite insertAppointmentSchema_parse_None.
  reflexivity.
Qed.


(** ** Ordering by position *)

Lemma insertByPosition_Permutation (row : Queue.t) (rows : list Queue.t) :
  Permutation (insertByPosition row rows) (row :: rows).
Proof.
  induction rows as [|r rest IH]; simpl; [apply Permutation_refl|].
  destruct (Queue.position row <=? Queue.position r).
  - apply Permutation_refl.
  - apply perm_trans with (r :: row :: rest).
    + apply perm_skip. exact IH.
    + apply perm_swap.
Qed.

Lemma orderByPosition_Permutation (rows : list Queue.t) :
  Permutation (orderByPosition rows) rows.
Proof.
  induction rows as [|r rest IH]; simpl; [apply perm_nil|].
  apply perm_trans with (r :: orderByPosition rest).
  - apply insertByPosition_Permutation.
  - apply perm_skip. exact IH.
Qed.

Lemma Permutation_filter_length {A : Type} (f : A -> bool) (l l' : list A) :
  Permutation l l' -> List.length (filter f l) = List.length (filter f l').
Proof.
  induction 1 as [|x l l' _ IH|x y l|l l' l'' _ IH1 _ IH2]; simpl.
  - reflexivity.
  - destruct (f x); simpl; rewrite IH; reflexivity.
  - destruct (f x), (f y); reflexivity.
  - rewrite IH1. exact IH2.
Qed.

Lemma getQueue_In (userId : string) (db : Db) (r : Queue.t) :
  In r (getQueue userId db) <-> In r (queue db) /\ Queue.userId r = userId.
Proof.
  unfold getQueue. split.
  - intros H. apply (Permutation_in _ (orderByPosition_Permutation _)) in H.
    unfold queueOf in H. apply filter_In in H.
    rewrite String.eqb_eq in H. exact H.
  - intros [H Hu].
    apply (Permutation_in _ (Permutation_sym (orderByPosition_Permutation _))).
    unfold queueOf. apply filter_In. rewrite String.eqb_eq. auto.
Qed.

(** ** Tenants *)

Lemma queueOf_updateQueueWhereId (tenant : string) (id : Z)
    (set : Queue.t -> Queue.t) (db : Db) :
  (forall row, Queue.userId (set row) = Queue.userId row) ->
  (forall r, In r (queueOf tenant db) -> Queue.id r <> id) ->
  queueOf tenant (snd (updateQueueWhereId id set db)) = queueOf tenant db.
Proof.
  intros Hu Hid. unfold queueOf, updateQueueWhereId. simpl.
  rewrite filter_map_same.
  - rewrite <- (map_id (filter _ (queue db))) at 2.
    apply map_ext_in. intros r Hr.
    destruct (Queue.id r =? id) eqn:E; [|reflexivity].
    apply Z.eqb_eq in E. exfalso. exact (Hid r Hr E).
  - intros row. destruct (Queue.id row =? id); [rewrite Hu|]; reflexivity.
Qed.

Lemma queueOf_removeFromQueue (tenant : string) (id : Z) (db : Db) :
  (forall r, In r (queueOf tenant db) -> Queue.id r <> id) ->
  queueOf tenant (removeFromQueue id db) = queueOf tenant db.
Proof.
  intros Hid. unfold queueOf, removeFromQueue. simpl.
  rewrite filter_filter_comm. apply filter_true_on.
  intros r Hr. apply negb_true_iff, Z.eqb_neq. exact (Hid r Hr).
Qed.

Lemma appointmentsOf_updateAppointment (tenant : string) (id : Z)
    (appointment : PartialAppointment.t) (now : Z) (db : Db) :
  (forall r, In r (appointmentsOf tenant db) -> Appointment.id r <> id) ->
  appointmentsOf tenant (snd (updateAppointment id appointment now db))
  = appointmentsOf tenant db.
Proof.
  intros Hid. unfold appointmentsOf, updateAppointment. simpl.
  rewrite filter_map_same.
  - rewrite <- (map_id (filter _ (appointments db))) at 2.
    apply map_ext_in. intros r Hr.
    destruct (Appointment.id r =? id) eqn:E; [|reflexivity].
    apply Z.eqb_eq in E. exfalso. exact (Hid r Hr E).
  - intros row. destruct (Appointment.id row =? id); reflexivity.
Qed.

Lemma appointmentsOf_deleteAppointment (tenant : string) (id : Z) (db : Db) :
  (forall r, In r (appointmentsOf tenant db) -> Appointment.id r <> id) ->
  appointmentsOf tenant (deleteAppointment id db) = appointmentsOf tenant db.
Proof.
  intros Hid. unfold appointmentsOf, deleteAppointment. simpl.
  rewrite filter_filter_comm. apply filter_true_on.
  intros r Hr. apply negb_true_iff, Z.eqb_neq. exact (Hid r Hr).
Qed.

Lemma queueOf_addToQueue_other (tenant caller : string) (queueItem : InsertQueue.t)
    (now : Z) (db : Db) :
  caller <> tenant ->
  queueOf tenant (snd (addToQueue queueItem caller now db)) = queueOf tenant db.
Proof.
  intros Hne. unfold queueOf, addToQueue. simpl.
  rewrite filter_app. simpl.
  apply String.eqb_neq in Hne. rewrite Hne. apply app_nil_r.
Qed.

Lemma appointmentsOf_createAppointment_other (tenant caller : string)
    (appointment : InsertAppointment.t) (now : Z) (db : Db) :
  caller <> tenant ->
  appointmentsOf tenant (snd (createAppointment appointment caller now db))
  = appointmentsOf tenant db.
Proof.
  intros Hne. unfold appointmentsOf, createAppointment. simpl.
  rewrite filter_app. simpl.
  apply String.eqb_neq in Hne. rewrite Hne. apply app_nil_r.
Qed.

Lemma queueOf_POST_api_queue_other (tenant caller : string) (queueItem : InsertQueue.t)
    (now : Z) (db : Db) :
  caller <> tenant ->
  queueOf tenant (snd (POST_api_queue caller queueItem now db)) = queueOf tenant db.
Proof.
  intros Hne. destruct (queueInsertAccepted queueItem db) eqn:E.
  - rewrite (POST_api_queue_accepted caller queueItem now db E).
    apply (queueOf_addToQueue_other tenant caller queueItem now db Hne).
  - rewrite (POST_api_queue_refused caller queueItem now db E).
    unfold queueOf. simpl.
    rewrite (proj1 (proj2 (proj2 (proj2 (refusedQueueInsert_tables queueItem db))))).
    reflexivity.
Qed.

Lemma queueOf_PUT_api_queue_position (tenant caller : string)
    (queueId position now : Z) (db : Db) :
  (forall r, In r (queueOf tenant db) -> Queue.id r <> queueId) ->
  queueOf tenant (snd (PUT_api_queue_position caller queueId position now db))
  = queueOf tenant db.
Proof.
  intros Hid. destruct (int4 position) eqn:E.
  - rewrite (PUT_api_queue_position_fits caller queueId position now db E).
    apply (queueOf_updateQueueWhereId tenant queueId (setPosition position now) db);
      [reflexivity | exact Hid].
  - rewrite (PUT_api_queue_position_refused caller queueId position now db E).
    reflexivity.
Qed.

Lemma appointmentsOf_PUT_api_appointments (tenant caller : string) (appointmentId : Z)
    (appointment : PartialAppointment.t) (now : Z) (db : Db) :
  (forall r, In r (appointmentsOf tenant db) -> Appointment.id r <> appointmentId) ->
  appointmentsOf tenant
    (snd (PUT_api_appointments caller appointmentId appointment now db))
  = appointmentsOf tenant db.
Proof.
  intros Hid.
  destruct (partialAppointmentParses appointment
            && appointmentUpdateAccepted appointment db) eqn:E.
  - apply andb_true_iff in E. destruct E as [E1 E2].
    rewrite (PUT_api_appointments_accepted caller appointmentId appointment now db E1 E2).
    apply appointmentsOf_updateAppointment. exact Hid.
  - rewrite (PUT_api_appointments_refused caller appointmentId appointment now db E).
    reflexivity.
Qed.

(** A row put in place of a tenant's row by a [set] that keeps the owner
    is in the tenant's queue afterwards. *)
Lemma queueOf_updateQueueWhereId_In (tenant : string) (set : Queue.t -> Queue.t)
    (db : Db) (r : Queue.t) :
  (forall row, Queue.id (set row) = Queue.id row) ->
  (forall row, Queue.userId (set row) = Queue.userId row) ->
  In r (queueOf tenant db) ->
  In (set r) (queueOf tenant (snd (updateQueueWhereId (Queue.id r) set db))).
Proof.
  intros Hid Hu Hr. unfold queueOf in *. apply filter_In in Hr.
  destruct Hr as [Hr Ho]. apply filter_In. split.
  - exact (proj1 (proj1 (proj2 (updateQueueWhereId_spec (Queue.id r) set db Hid))
                    r Hr eq_refl)).
  - rewrite Hu. exact Ho.
Qed.




(** ** Admission: the position and the estimate sent by the form *)

Lemma lengthPlusOne_length (n : nat) :
  lengthPlusOne (Some (Z.of_nat n)) = Z.of_nat n + 1.
Proof.
  unfold lengthPlusOne. destruct (Z.of_nat n =? 0) eqn:E; [|reflexivity].
  apply Z.eqb_eq in E. rewrite E. reflexivity.
Qed.

Lemma getQueue_length (userId : string) (db : Db) :
  List.length (getQueue userId db) = List.length (queueOf userId db).
Proof. apply Permutation_length, orderByPosition_Permutation. Qed.

(** The walk-in branch of [onSubmit] never produces a payload: the
    initialiser of its [const queueData] reads [queueData] itself. *)
Lemma onSubmit_walkIn_throws (appointmentToEdit : option Appointment.t)
    (services : option (list Service.t)) (queueData : option (list Queue.t))
    (data : FormValues) :
  onSubmit true appointmentToEdit services queueData data = Throw ReferenceError.
Proof. reflexivity. Qed.




(** ** The estimate *)

(** The entries the client counts are the tenant's rows in status waiting. *)
Lemma waitingEntriesIn_filter (userId : string) (rows : list Queue.t) :
  Z.of_nat (List.length
              (filter isWaiting
                 (filter (fun row => String.eqb (Queue.userId row) userId) rows)))
  = waitingEntriesIn userId rows.
Proof.
  induction rows as [|r rows IH]; [reflexivity|].
  cbn [filter waitingEntriesIn].
  destruct (string_dec (Queue.userId r) userId) as [He | Hne].
  - apply String.eqb_eq in He. rewrite He. cbn [filter]. unfold isWaiting at 1.
    destruct (Queue.status r) as [status|]; [|exact IH].
    destruct (string_dec status "waiting") as [Hs | Hs].
    + apply String.eqb_eq in Hs. rewrite Hs.
      cbn [List.length]. rewrite Nat2Z.inj_succ, IH. lia.
    + apply String.eqb_neq in Hs. rewrite Hs. exact IH.
  - apply String.eqb_neq in Hne. rewrite Hne.
    destruct (Queue.status r); exact IH.
Qed.

Lemma waitingEntriesIn_nonneg (userId : string) (rows : list Queue.t) :
  0 <= waitingEntriesIn userId rows.
Proof. rewrite <- waitingEntriesIn_filter. lia. Qed.

Lemma queueLength_getQueue (userId : string) (db : Db) :
  Z.of_nat (List.length (filter isWaiting (getQueue userId db)))
  = waitingEntries userId db.
Proof.
  unfold getQueue.
  rewrite (Permutation_filter_length isWaiting _ _ (orderByPosition_Permutation _)).
  apply waitingEntriesIn_filter.
Qed.

(** With distinct ids, [find] by id returns the listed service. *)
Lemma findService_listed (services : list Service.t) (service : Service.t) :
  NoDup (map Service.id services) ->
  In service services ->
  findService (Some services) (Service.id service) = Some service.
Proof.
  unfold findService.
  induction services as [|s services IH]; intros Hnd Hin; [destruct Hin|].
  apply NoDup_cons_iff in Hnd. destruct Hnd as [Hs Hnd]. simpl.
  destruct Hin as [-> | Hin].
  - rewrite Z.eqb_refl. reflexivity.
  - destruct (Service.id s =? Service.id service) eqn:E.
    + apply Z.eqb_eq in E. exfalso. apply Hs. rewrite E. apply in_map. exact Hin.
    + apply IH; assumption.
Qed.

(** C4 (as amended).  Let k be the number of the tenant's queue entries in
    status waiting, and let the client hold the tenant's queue and a service
    list with distinct ids.  The estimate computed for an admission is k * d
    when the requested service is in the list with a duration d other than
    0, and k * 30 when its duration is 0, when it is not in the list, and
    when no list is loaded.  It is 0 when no entry is waiting or no queue is
    fetched, it is not negative when d is not negative, and it is negative
    when d is negative and an entry is waiting. *)
Theorem estimate_is_waiting_count_times_duration
    (userId : string) (db : Db) (services : list Service.t) (serviceId : Z) :
  (forall service,
     NoDup (map Service.id services) ->
     In service services -> Service.id service = serviceId ->
     (Service.duration service <> 0 ->
      calculateEstimatedWaitTime (Some services) (Some (getQueue userId db)) serviceId
      = waitingEntries userId db * Service.duration service)
     /\ (Service.duration service = 0 ->
         calculateEstimatedWaitTime (Some services) (Some (getQueue userId db)) serviceId
         = waitingEntries userId db * 30)
     /\ (0 <= Service.duration service ->
         0 <= calculateEstimatedWaitTime (Some services) (Some (getQueue userId db))
                serviceId)
     /\ (Service.duration service < 0 -> 0 < waitingEntries userId db ->
         calculateEstimatedWaitTime (Some services) (Some (getQueue userId db)) serviceId
         < 0))
  /\ ((forall service, In service services -> Service.id service <> serviceId) ->
      calculateEstimatedWaitTime (Some services) (Some (getQueue userId db)) serviceId
      = waitingEntries userId db * 30)
  /\ calculateEstimatedWaitTime None (Some (getQueue userId db)) serviceId
     = waitingEntries userId db * 30
  /\ (waitingEntries userId db = 0 ->
      forall anyServices anyId,
        calculateEstimatedWaitTime anyServices (Some (getQueue userId db)) anyId = 0)
  /\ calculateEstimatedWaitTime (Some services) None serviceId = 0
  /\ 0 <= waitingEntries userId db.
Proof.
  pose proof (waitingEntriesIn_nonneg userId (queue db)) as Hk.
  fold (waitingEntries userId db) in Hk.
  split; [|split; [|split; [|split; [|split; [reflexivity | exact Hk]]]]].
  - intros service Hnd Hin <-.
    unfold calculateEstimatedWaitTime.
    rewrite (findService_listed services service Hnd Hin), queueLength_getQueue.
    destruct (Service.duration service =? 0) eqn:E.
    + apply Z.eqb_eq in E. repeat split; intros; nia.
    + apply Z.eqb_neq in E. repeat split; intros; nia.
  - intros Hnone. unfold calculateEstimatedWaitTime, findService.
    rewrite (find_none_on (fun s => Service.id s =? serviceId) services),
      queueLength_getQueue; [reflexivity|].
    intros s Hs. apply Z.eqb_neq. exact (Hnone s Hs).
  - unfold calculateEstimatedWaitTime. simpl findService.
    rewrite queueLength_getQueue. reflexivity.
  - intros H0 anyServices anyId. unfold calculateEstimatedWaitTime.
    rewrite queueLength_getQueue, H0. reflexivity.
Qed.

(** Tenant ["shop"] has three waiting entries and asks for its 15-minute
    service: 45 minutes. *)
Lemma estimate_is_waiting_count_times_duration_witness :
  waitingEntries "shop" shopLine = 3
  /\ calculateEstimatedWaitTime (Some [shave]) (Some (getQueue "shop" shopLine)) 2
     = waitingEntries "shop" shopLine * Service.duration shave.
Proof.
  split; [reflexivity|].
  apply (proj1 (estimate_is_waiting_count_times_duration "shop" shopLine [shave] 2)
           shave).
  - repeat constructor. simpl. tauto.
  - left. reflexivity.
  - reflexivity.
  - discriminate.
Defined.

(** C4 as stated fails.  Tenant ["shop"] has three waiting entries, k = 3.
    For a listed service of duration 0 the estimate is 90, not 3 * 0; for a
    service that is not in the list, or with no list loaded, it is 90; for a
    listed service of duration -10 it is -30, a negative number. *)
Lemma estimate_falls_back_to_thirty :
  waitingEntries "shop" shopLine = 3
  /\ Service.duration (shaveOfDuration 0) = 0
  /\ calculateEstimatedWaitTime (Some [shaveOfDuration 0])
       (Some (getQueue "shop" shopLine)) 2 = 90
  /\ calculateEstimatedWaitTime (Some [shave]) (Some (getQueue "shop" shopLine)) 7 = 90
  /\ calculateEstimatedWaitTime None (Some (getQueue "shop" shopLine)) 2 = 90
  /\ Service.duration (shaveOfDuration (-10)) = -10
  /\ calculateEstimatedWaitTime (Some [shaveOfDuration (-10)])
       (Some (getQueue "shop" shopLine)) 2 = -30.
Proof. vm_compute. repeat split. Qed.

(** ** What the admission stores *)




(** ** Status changes *)




(** C6 (as amended).  [removeFromQueue] deletes the rows with the given id
    and nothing else: every other entry stays in the queue as it was, so
    the entries behind the removed one keep their positions (none is
    decremented), and the other tables and the id sequence are untouched. *)
Theorem removeFromQueue_keeps_every_other_entry (caller : string) (id : Z) (db : Db) :
  (forall r, In r (queue (snd (DELETE_api_queue caller id db)))
             <-> In r (queue db) /\ Queue.id r <> id)
  /\ (forall u, livePositions u (removeFromQueue id db)
                = map Queue.position
                    (filter (fun row => negb (Queue.id row =? id)) (liveOf u db)))
  /\ appointments (removeFromQueue id db) = appointments db
  /\ queue_id_seq (removeFromQueue id db) = queue_id_seq db.
Proof.
  split; [|split; [|split]]; try reflexivity.
  - intros r. simpl. rewrite filter_In, negb_true_iff, Z.eqb_neq. tauto.
  - intros u. unfold livePositions. rewrite liveOf_removeFromQueue. reflexivity.
Qed.

(** C6 as stated fails: entry 3 stands behind entry 2 at position 3, and
    after entry 2 is removed it is still at position 3, not 2. *)
Lemma remove_does_not_decrement :
  map (fun r => (Queue.id r, Queue.position r)) (queue threeWaiting)
  = [(1, 1); (2, 2); (3, 3)]
  /\ map (fun r => (Queue.id r, Queue.position r))
       (queue (snd (DELETE_api_queue "shop" 2 threeWaiting)))
     = [(1, 1); (3, 3)].
Proof. vm_compute. repeat split. Qed.

(** C7 (as amended).  A reposition to a value the 32-bit column holds sets
    the position of the row with the given id to that value, whoever owns
    the row and wherever the value lies with respect to the line, and is
    answered with the updated row; every other row stays as it was (none is
    shifted), and when no row has the id, an id of the column's range,
    the answer carries no row and nothing changes.  A value the column does not hold is answered with the
    handler's 500 and changes nothing. *)
Theorem updateQueuePosition_sets_one_row
    (caller : string) (queueId position : Z) (now : Z) (db : Db) :
  (int4 position = true ->
   (forall r, In r (queue db) -> Queue.id r <> queueId ->
      In r (queue (snd (PUT_api_queue_position caller queueId position now db))))
   /\ (forall r, In r (queue db) -> Queue.id r = queueId ->
         In (setPosition position now r)
            (queue (snd (PUT_api_queue_position caller queueId position now db)))
         /\ exists r', sent (fst (PUT_api_queue_position caller queueId position now db))
                       = Some (Some r')
                       /\ Queue.id r' = queueId
                       /\ Queue.position r' = position)
   /\ ((forall r, In r (queue db) -> Queue.id r <> queueId) ->
       int4 queueId = true ->
       PUT_api_queue_position caller queueId position now db = (Json None, db))
   /\ map Queue.id (queue (snd (PUT_api_queue_position caller queueId position now db)))
      = map Queue.id (queue db)
   /\ List.length (queue (snd (PUT_api_queue_position caller queueId position now db)))
      = List.length (queue db))
  /\ (int4 position = false ->
      PUT_api_queue_position caller queueId position now db
      = (Status500 "Failed to update queue position", db))
  /\ (int4 position = true <-> -2147483648 <= position <= 2147483647).
Proof.
  split; [|split; [apply PUT_api_queue_position_refused | apply int4_iff]].
  intros Hfits.
  rewrite (PUT_api_queue_position_fits caller queueId position now db Hfits).
  destruct (updateQueueWhereId_spec queueId (setPosition position now) db
              (fun row => eq_refl)) as [Hother [Hsame [Hnone Hids]]].
  unfold updateQueuePosition.
  split; [exact Hother|]. split; [|split; [|split; [exact Hids|]]].
  - intros r Hr He. destruct (Hsame r Hr He) as [Hin [r0 [_ [Hid Hret]]]].
    split; [exact Hin|]. exists (setPosition position now r0).
    cbn [fst snd sent]. rewrite Hret. auto.
  - intros H _. destruct (Hnone H) as [Hret Hq]. rewrite Hret.
    f_equal. unfold updateQueueWhereId in *. cbn [fst snd queue withQueue] in *.
    rewrite Hq. destruct db. reflexivity.
  - cbn [snd].
    rewrite <- (length_map Queue.id
                  (queue (snd (updateQueueWhereId queueId (setPosition position now) db)))),
      Hids.
    apply length_map.
Qed.

(** Entry 3 of [shopLine] is moved to position 1; entries 1 and 2 stay. *)
Lemma updateQueuePosition_sets_one_row_witness :
  map (fun r => (Queue.id r, Queue.position r))
    (queue (snd (PUT_api_queue_position "shop" 3 1 40 shopLine)))
  = [(1, 1); (2, 2); (3, 1)]
  /\ exists r', sent (fst (PUT_api_queue_position "shop" 3 1 40 shopLine))
                = Some (Some r')
                /\ Queue.id r' = 3
                /\ Queue.position r' = 1.
Proof.
  split; [reflexivity|].
  exact (proj2 (proj1 (proj2 (proj1 (updateQueuePosition_sets_one_row
                                       "shop" 3 1 40 shopLine) eq_refl))
                  (Queue.mk 3 "shop" 2 2 None 3 (Some "waiting") (Some 30)
                            (Some 30) (Some 30))
                  (or_intror (or_intror (or_introl eq_refl))) eq_refl)).
Defined.

(** C7 as stated fails.  In [twoLines] tenant ["shop"] repositions entry 1,
    which is tenant ["other"]'s, to position 7 of a line of one: the answer
    is the updated row, not NotFound or InvalidPosition.  An id no row has
    is answered without error.  Moving entry 3 of the three of [shopLine] to
    position 1 shifts no other entry: positions 1, 2, 1. *)
Lemma reposition_never_fails_never_shifts :
  map (fun r => (Queue.id r, Queue.userId r, Queue.position r)) (queue twoLines)
  = [(1, "other", 1); (2, "shop", 1)]
  /\ option_map (option_map (fun r => (Queue.id r, Queue.userId r, Queue.position r)))
       (sent (fst (PUT_api_queue_position "shop" 1 7 40 twoLines)))
     = Some (Some (1, "other", 7))
  /\ livePositions "other" (snd (PUT_api_queue_position "shop" 1 7 40 twoLines))
     = [7]
  /\ fst (PUT_api_queue_position "shop" 5 1 40 twoLines) = Json None
  /\ map (fun r => (Queue.id r, Queue.position r))
       (queue (snd (PUT_api_queue_position "shop" 3 1 40 shopLine)))
     = [(1, 1); (2, 2); (3, 1)].
Proof. vm_compute. repeat split. Qed.

(** ** Booking *)




(** ** The dashboard *)

(** No row passes [eq(createdAt, today)] and [eq(createdAt, tomorrow)] at
    once, so the rows summed for today's revenue are none. *)
Lemma todayTransactions_nil (userId : string) (utcOffset now : Z) (db : Db) :
  todayTransactions userId (localMidnight utcOffset now)
    (nextMidnight (localMidnight utcOffset now)) db = [].
Proof.
  unfold todayTransactions.
  induction (transactions db) as [|row rows IH]; simpl; [reflexivity|].
  replace (String.eqb (Transaction.userId row) userId
           && eqTimestamp (Transaction.createdAt row) (localMidnight utcOffset now)
           && eqTimestamp (Transaction.createdAt row)
                (nextMidnight (localMidnight utcOffset now)))
    with false; [exact IH|].
  symmetry. unfold eqTimestamp, nextMidnight, msPerDay.
  destruct (Transaction.createdAt row) as [t|]; [|apply andb_false_r].
  destruct (t =? localMidnight utcOffset now) eqn:E1;
    [|rewrite andb_false_r; reflexivity].
  apply Z.eqb_eq in E1. subst t.
  replace (localMidnight utcOffset now =? localMidnight utcOffset now + 86400000)
    with false; [apply andb_false_r|].
  symmetry. apply Z.eqb_neq. lia.
Qed.

Lemma getDashboardStats_todayRevenue_zero (userId : string) (utcOffset now : Z) (db : Db) :
  todayRevenue (getDashboardStats userId utcOffset now db) = 0.
Proof.
  unfold getDashboardStats. simpl. rewrite todayTransactions_nil. reflexivity.
Qed.

(** C9 at the failing input: at 10:00 UTC the tenant has two transactions of
    the day, 20.00 pending and 35.00 completed, 55.00 in the window; the
    snapshot reports a revenue of 0. *)
Lemma todayRevenue_of_two_transactions :
  map (fun t => (Transaction.total t, Transaction.status t, Transaction.createdAt t))
    (transactions twoTransactionsToday)
  = [(2000, Some "pending", Some jan1_0900); (3500, Some "completed", Some jan1_0930)]
  /\ localMidnight 0 jan1_1000 = jan1_0000
  /\ revenueInWindow "shop" jan1_0000 (nextMidnight jan1_0000) twoTransactionsToday = 5500
  /\ option_map todayRevenue
       (sent (GET_api_dashboard_stats "shop" 0 jan1_1000 twoTransactionsToday))
     = Some 0.
Proof. vm_compute. repeat split. Qed.

(** * Further properties of the code *)

(** ** Ordered reads *)

Section OrderBy.

Context {A : Type} (le : A -> A -> bool).

Lemma insertBy_Permutation (row : A) (rows : list A) :
  Permutation (insertBy le row rows) (row :: rows).
Proof.
  induction rows as [|r rest IH]; simpl; [apply Permutation_refl|].
  destruct (le row r); [apply Permutation_refl|].
  apply perm_trans with (r :: row :: rest); [apply perm_skip, IH | apply perm_swap].
Qed.

Lemma orderBy_Permutation (rows : list A) : Permutation (orderBy le rows) rows.
Proof.
  induction rows as [|r rest IH]; simpl; [apply perm_nil|].
  apply perm_trans with (r :: orderBy le rest);
    [apply insertBy_Permutation | apply perm_skip, IH].
Qed.

Hypothesis le_total : forall a b, le a b = true \/ le b a = true.

Lemma insertBy_Sorted (row : A) (rows : list A) :
  Sorted (fun a b => le a b = true) rows ->
  Sorted (fun a b => le a b = true) (insertBy le row rows).
Proof.
  induction rows as [|r rest IH]; simpl; intros Hs.
  - repeat constructor.
  - destruct (le row r) eqn:E.
    + constructor; [exact Hs | constructor; exact E].
    + apply Sorted_inv in Hs. destruct Hs as [Hrest Hhd].
      constructor; [apply IH; exact Hrest|].
      assert (Hr : le r row = true)
        by (destruct (le_total row r) as [H | H]; [congruence | exact H]).
      destruct rest as [|r' rest']; simpl.
      * constructor. exact Hr.
      * destruct (le row r'); constructor; [exact Hr|].
        apply HdRel_inv in Hhd. exact Hhd.
Qed.

Lemma orderBy_Sorted (rows : list A) :
  Sorted (fun a b => le a b = true) (orderBy le rows).
Proof.
  induction rows as [|r rest IH]; simpl; [constructor|].
  apply insertBy_Sorted. exact IH.
Qed.

End OrderBy.

Lemma orderByPosition_orderBy (rows : list Queue.t) :
  orderByPosition rows
  = orderBy (fun a b => Queue.position a <=? Queue.position b) rows.
Proof.
  unfold orderByPosition, orderBy. induction rows as [|r rest IH]; simpl; [reflexivity|].
  rewrite IH. generalize (fold_right
    (insertBy (fun a b => Queue.position a <=? Queue.position b)) [] rest).
  intros l. induction l as [|x l IHl]; simpl; [reflexivity|].
  rewrite IHl. reflexivity.
Qed.

(** X3.  [getQueue] returns the tenant's entries, each as often as the table
    holds it and no other row, in ascending order of position. *)
Theorem getQueue_sorted_permutation (userId : string) (db : Db) :
  Sorted (fun a b => Queue.position a <= Queue.position b) (getQueue userId db)
  /\ Permutation (getQueue userId db) (queueOf userId db)
  /\ (forall r, In r (getQueue userId db)
                <-> In r (queue db) /\ Queue.userId r = userId).
Proof.
  split; [|split].
  - unfold getQueue. rewrite orderByPosition_orderBy.
    eapply Sorted_ind with
      (P := fun l => Sorted (fun a b => Queue.position a <= Queue.position b) l).
    + constructor.
    + intros a l _ IH Hhd. constructor; [exact IH|].
      destruct Hhd as [|b l' Hb]; constructor. apply Z.leb_le. exact Hb.
    + apply orderBy_Sorted. intros a b.
      rewrite !Z.leb_le. lia.
  - apply orderByPosition_Permutation.
  - apply getQueue_In.
Qed.

(** X4.  [getAppointments] returns the tenant's appointments, each as often as
    the table holds it and no other row, latest start first. *)
Theorem getAppointments_sorted_permutation (userId : string) (db : Db) :
  Sorted (fun a b => Appointment.startTime b <= Appointment.startTime a)
         (getAppointments userId db)
  /\ Permutation (getAppointments userId db) (appointmentsOf userId db)
  /\ (forall a, In a (getAppointments userId db)
                <-> In a (appointments db) /\ Appointment.userId a = userId).
Proof.
  split; [|split].
  - unfold getAppointments.
    eapply Sorted_ind with
      (P := fun l => Sorted (fun a b => Appointment.startTime b
                                        <= Appointment.startTime a) l).
    + constructor.
    + intros a l _ IH Hhd. constructor; [exact IH|].
      destruct Hhd as [|b l' Hb]; constructor. apply Z.leb_le. exact Hb.
    + apply orderBy_Sorted. intros a b.
      rewrite !Z.leb_le. lia.
  - apply orderBy_Permutation.
  - intros a. unfold getAppointments, appointmentsOf. split.
    + intros H. apply (Permutation_in _ (orderBy_Permutation _ _)) in H.
      apply filter_In in H. rewrite String.eqb_eq in H. exact H.
    + intros [H Hu].
      apply (Permutation_in _ (Permutation_sym (orderBy_Permutation _ _))).
      apply filter_In. rewrite String.eqb_eq. auto.
Qed.

(** ** Today's lists *)

Lemma filter_false_on {A : Type} (f : A -> bool) (l : list A) :
  (forall x, In x l -> f x = false) -> filter f l = [].
Proof.
  induction l as [|x l IH]; simpl; intros H; [reflexivity|].
  rewrite (H x (or_introl eq_refl)). apply IH.
  intros y Hy. apply H. right. exact Hy.
Qed.

Lemma midnights_differ (utcOffset now t : Z) :
  (t =? localMidnight utcOffset now)
  && (t =? nextMidnight (localMidnight utcOffset now)) = false.
Proof.
  unfold nextMidnight, msPerDay.
  destruct (t =? localMidnight utcOffset now) eqn:E; [|reflexivity].
  apply Z.eqb_eq in E. subst t. simpl. apply Z.eqb_neq. lia.
Qed.

(** X5.  The lists "of today" are empty for every tenant, clock reading, zone
    and store: [getTodaysAppointments] and [getTodaysTransactions] return no
    row, and the snapshot's [todayAppointmentCount] is 0, because each row
    is asked to equal both today's and tomorrow's midnight. *)
Theorem todays_lists_are_empty (userId : string) (utcOffset now : Z) (db : Db) :
  getTodaysAppointments userId utcOffset now db = []
  /\ getTodaysTransactions userId utcOffset now db = []
  /\ todayAppointmentCount (getDashboardStats userId utcOffset now db) = 0.
Proof.
  assert (Ha : filter (fun row => String.eqb (Appointment.userId row) userId
                         && (Appointment.startTime row =? localMidnight utcOffset now)
                         && (Appointment.startTime row
                             =? nextMidnight (localMidnight utcOffset now)))
                      (appointments db) = []).
  { apply filter_false_on. intros a _.
    rewrite <- andb_assoc, midnights_differ. apply andb_false_r. }
  split; [|split].
  - unfold getTodaysAppointments. cbv zeta. rewrite Ha. reflexivity.
  - unfold getTodaysTransactions. cbv zeta.
    rewrite todayTransactions_nil. reflexivity.
  - unfold getDashboardStats. cbv zeta. simpl todayAppointmentCount.
    rewrite Ha. reflexivity.
Qed.

(** ** The average wait of the dashboard *)

Lemma sum_estimates_bounds (lo hi : Z) (items : list Queue.t) (acc : Z) :
  (forall r, In r items -> lo <= orZero (Queue.estimatedWaitTime r) <= hi) ->
  acc + Z.of_nat (List.length items) * lo
  <= fold_left (fun sum item => sum + orZero (Queue.estimatedWaitTime item)) items acc
  <= acc + Z.of_nat (List.length items) * hi.
Proof.
  revert acc. induction items as [|r items IH]; intros acc H.
  - simpl. lia.
  - cbn [fold_left List.length].
    specialize (IH (acc + orZero (Queue.estimatedWaitTime r))
                   (fun x Hx => H x (or_intror Hx))).
    pose proof (H r (or_introl eq_refl)) as Hr.
    rewrite Nat2Z.inj_succ. lia.
Qed.

Lemma entriesIn_queueOf (userId : string) (db : Db) :
  Z.of_nat (List.length (queueOf userId db)) = entriesIn userId (queue db).
Proof.
  unfold queueOf. induction (queue db) as [|r rows IH]; [reflexivity|].
  cbn [filter entriesIn].
  destruct (string_dec (Queue.userId r) userId) as [He | Hne].
  - apply String.eqb_eq in He. rewrite He. cbn [List.length].
    rewrite Nat2Z.inj_succ, IH. lia.
  - apply String.eqb_neq in Hne. rewrite Hne. exact IH.
Qed.

Lemma estimatesIn_queueOf (userId : string) (db : Db) (acc : Z) :
  fold_left (fun sum item => sum + orZero (Queue.estimatedWaitTime item))
    (queueOf userId db) acc
  = acc + estimatesIn userId (queue db).
Proof.
  unfold queueOf. revert acc.
  induction (queue db) as [|r rows IH]; intros acc; [simpl; lia|].
  cbn [filter estimatesIn].
  destruct (string_dec (Queue.userId r) userId) as [He | Hne].
  - apply String.eqb_eq in He. rewrite He. cbn [fold_left]. rewrite IH.
    destruct (Queue.estimatedWaitTime r); simpl; lia.
  - apply String.eqb_neq in Hne. rewrite Hne.
    destruct (Queue.estimatedWaitTime r); apply IH.
Qed.

(** X6.  [averageWaitTime] is the mean of the estimates of all the tenant's
    queue entries, whatever their status and date, a missing estimate
    counting as 0, rounded to the nearest integer with halves rounded up:
    with n entries of total estimate t it is the integer a with
    a - 1/2 <= t / n < a + 1/2.  It is 0 when the tenant has no entry, and
    it lies between any two bounds that hold for every entry's estimate. *)
Theorem averageWaitTime_is_the_rounded_mean (userId : string) (utcOffset now : Z)
    (db : Db) (lo hi : Z) :
  (forall r, In r (queue db) -> Queue.userId r = userId ->
             lo <= orZero (Queue.estimatedWaitTime r) <= hi) ->
  (entriesIn userId (queue db) = 0 ->
   averageWaitTime (getDashboardStats userId utcOffset now db) = 0)
  /\ (0 < entriesIn userId (queue db) ->
      2 * entriesIn userId (queue db)
        * averageWaitTime (getDashboardStats userId utcOffset now db)
      <= 2 * estimatesIn userId (queue db) + entriesIn userId (queue db)
      < 2 * entriesIn userId (queue db)
          * (averageWaitTime (getDashboardStats userId utcOffset now db) + 1)
      /\ lo <= averageWaitTime (getDashboardStats userId utcOffset now db) <= hi)
  /\ 0 <= entriesIn userId (queue db).
Proof.
  intros H.
  assert (H' : forall r, In r (queueOf userId db) ->
                         lo <= orZero (Queue.estimatedWaitTime r) <= hi).
  { intros r Hr. unfold queueOf in Hr. apply filter_In in Hr.
    destruct Hr as [Hr Ho]. apply String.eqb_eq in Ho. exact (H r Hr Ho). }
  pose proof (sum_estimates_bounds lo hi (queueOf userId db) 0 H') as Hsum.
  rewrite estimatesIn_queueOf, entriesIn_queueOf in Hsum.
  unfold getDashboardStats. cbv zeta. simpl averageWaitTime.
  rewrite estimatesIn_queueOf, entriesIn_queueOf.
  set (n := entriesIn userId (queue db)) in *.
  set (t := estimatesIn userId (queue db)) in *.
  split; [|split].
  - intros ->. reflexivity.
  - intros Hn. apply Z.ltb_lt in Hn as Hn'. rewrite Hn'. unfold roundDiv.
    replace (0 + t) with t by lia.
    pose proof (Z.div_mod (2 * t + n) (2 * n) ltac:(lia)) as Hdm.
    pose proof (Z.mod_pos_bound (2 * t + n) (2 * n) ltac:(lia)) as Hmod.
    split; [nia|]. split.
    + apply Z.div_le_lower_bound; nia.
    + assert ((2 * t + n) / (2 * n) < hi + 1); [|lia].
      apply Z.div_lt_upper_bound; nia.
  - unfold n. rewrite <- entriesIn_queueOf. lia.
Qed.

(** The three entries of [shopLine] were given estimates 0, 15 and 30: the
    average shown is 15. *)
Lemma averageWaitTime_is_the_rounded_mean_witness :
  entriesIn "shop" (queue shopLine) = 3
  /\ estimatesIn "shop" (queue shopLine) = 45
  /\ averageWaitTime (getDashboardStats "shop" 0 jan1_1000 shopLine) = 15
  /\ (2 * entriesIn "shop" (queue shopLine)
        * averageWaitTime (getDashboardStats "shop" 0 jan1_1000 shopLine)
      <= 2 * estimatesIn "shop" (queue shopLine) + entriesIn "shop" (queue shopLine)
      < 2 * entriesIn "shop" (queue shopLine)
          * (averageWaitTime (getDashboardStats "shop" 0 jan1_1000 shopLine) + 1)
      /\ 0 <= averageWaitTime (getDashboardStats "shop" 0 jan1_1000 shopLine) <= 30).
Proof.
  split; [reflexivity|]. split; [reflexivity|]. split; [reflexivity|].
  apply (proj1 (proj2 (averageWaitTime_is_the_rounded_mean
                         "shop" 0 jan1_1000 shopLine 0 30
                         ltac:(intros r [<- | [<- | [<- | []]]] _; simpl; lia)))).
  reflexivity.
Defined.

(** ** Serial ids *)

Section SerialIds.

Context {A : Type} (id : A -> Z).

Lemma serialIds_append (rows : list A) (seq : Z) (new : A) :
  0 <= seq -> id new = seq + 1 ->
  serialIds id rows seq -> serialIds id (rows ++ [new]) (seq + 1).
Proof.
  intros Hseq Hnew [Hnd Hall]. rewrite Forall_forall in Hall. split.
  - rewrite map_app. simpl.
    apply NoDup_app; [exact Hnd | repeat constructor; intros [] |].
    intros x Hx [<- | []]. apply in_map_iff in Hx.
    destruct Hx as [r [Hr Hin]]. specialize (Hall r Hin). lia.
  - apply Forall_forall. intros r Hr. apply in_app_iff in Hr.
    destruct Hr as [Hr | [<- | []]]; [specialize (Hall r Hr)|]; lia.
Qed.

Lemma serialIds_map (g : A -> A) (rows : list A) (seq : Z) :
  (forall r, id (g r) = id r) ->
  serialIds id rows seq -> serialIds id (map g rows) seq.
Proof.
  intros Hg [Hnd Hall]. split.
  - rewrite map_map. rewrite (map_ext _ id); [exact Hnd | exact Hg].
  - apply Forall_map. apply (Forall_impl _ (P := fun r => 1 <= id r <= seq));
      [|exact Hall].
    intros r Hr. rewrite Hg. exact Hr.
Qed.

Lemma serialIds_filter (f : A -> bool) (rows : list A) (seq : Z) :
  serialIds id rows seq -> serialIds id (filter f rows) seq.
Proof.
  intros [Hnd Hall]. split.
  - clear Hall. induction rows as [|r rows IH]; simpl; [constructor|].
    simpl in Hnd. apply NoDup_cons_iff in Hnd. destruct Hnd as [Hr Hnd].
    destruct (f r); simpl; [|apply IH; exact Hnd].
    constructor; [|apply IH; exact Hnd].
    intros Hin. apply Hr. apply in_map_iff in Hin.
    destruct Hin as [x [Hx Hin]]. apply filter_In in Hin.
    apply in_map_iff. exists x. tauto.
  - rewrite Forall_forall in *. intros r Hr. apply filter_In in Hr.
    apply Hall. tauto.
Qed.

(** In a table with distinct ids, the first row with the id of a row is
    that row. *)
Lemma lookup_unique (rows : list A) (a : A) :
  NoDup (map id rows) -> In a rows ->
  hd_error (filter (fun r => id r =? id a) rows) = Some a.
Proof.
  induction rows as [|r rows IH]; simpl; intros Hnd Hin; [destruct Hin|].
  apply NoDup_cons_iff in Hnd. destruct Hnd as [Hr Hnd].
  destruct Hin as [-> | Hin].
  - rewrite Z.eqb_refl. reflexivity.
  - destruct (id r =? id a) eqn:E; [|apply IH; assumption].
    apply Z.eqb_eq in E. exfalso. apply Hr. rewrite E. apply in_map. exact Hin.
Qed.

End SerialIds.

Lemma serialOk_applyCall (now : Z) (call : storageCall) (db : Db) :
  serialOk db -> serialOk (applyCall now call db).
Proof.
  intros (Ha & Hq & Ht & Sa & Sq & St).
  destruct call as [appointment u | id patch | id | queueItem u | id position
                    | id status | id | transaction u | id];
    unfold serialOk; simpl;
    refine (conj _ (conj _ (conj _ (conj _ (conj _ _)))));
    first [ assumption
          | lia
          | apply serialIds_append; [assumption | reflexivity | assumption]
          | apply serialIds_filter; assumption
          | apply serialIds_map;
            [intros r; destruct (_ =? _); reflexivity | assumption] ].
Qed.

Lemma serialOk_emptyDb : serialOk emptyDb.
Proof.
  unfold serialOk, serialIds. simpl.
  repeat split; try lia; constructor.
Qed.

(** X7.  In every store the storage calls build from the empty one, whatever the
    calls and their arguments, the ids of appointments, of queue entries and
    of transactions are pairwise distinct and lie between 1 and the last
    value of their sequence: no call reuses or changes an id. *)
Theorem ids_stay_unique (calls : list (Z * storageCall)) :
  serialOk (runCalls calls emptyDb).
Proof.
  assert (H : forall db, serialOk db -> serialOk (runCalls calls db)).
  { induction calls as [|[now call] rest IH]; simpl; intros db Hok; [exact Hok|].
    apply IH. apply serialOk_applyCall. exact Hok. }
  apply H. exact serialOk_emptyDb.
Qed.

(** ** Appointments: insert, update, delete against lookup *)

Lemma getAppointment_other (id target : Z) (g : Appointment.t -> Appointment.t)
    (rows : list Appointment.t) :
  (forall r, Appointment.id (g r) = Appointment.id r) ->
  id <> target ->
  hd_error (filter (fun row => Appointment.id row =? id)
              (map (fun row => if Appointment.id row =? target then g row else row) rows))
  = hd_error (filter (fun row => Appointment.id row =? id) rows).
Proof.
  intros Hg Hne. rewrite filter_map_same.
  - f_equal. rewrite <- (map_id (filter _ rows)) at 2.
    apply map_ext_in. intros r Hr. apply filter_In in Hr.
    destruct Hr as [_ Hr]. apply Z.eqb_eq in Hr.
    destruct (Appointment.id r =? target) eqn:E; [|reflexivity].
    apply Z.eqb_eq in E. congruence.
  - intros r. destruct (Appointment.id r =? target); [rewrite Hg|]; reflexivity.
Qed.



(** ** Services: the soft delete *)

Lemma getServices_In (nameLe : string -> string -> bool) (userId : string) (db : Db)
    (s : Service.t) :
  In s (getServices nameLe userId db)
  <-> In s (services db) /\ Service.userId s = userId /\ isActiveService s = true.
Proof.
  unfold getServices. split.
  - intros H. apply (Permutation_in _ (orderBy_Permutation _ _)) in H.
    apply filter_In in H. rewrite andb_true_iff, String.eqb_eq in H. tauto.
  - intros (H & Hu & Ha).
    apply (Permutation_in _ (Permutation_sym (orderBy_Permutation _ _))).
    apply filter_In. rewrite andb_true_iff, String.eqb_eq. tauto.
Qed.

Lemma services_deleteService_In (id : Z) (db : Db) (s : Service.t) :
  In s (services (deleteService id db))
  <-> (In s (services db) /\ Service.id s <> id)
      \/ (exists r, In r (services db) /\ Service.id r = id /\ s = deactivate r).
Proof.
  unfold deleteService. simpl. rewrite in_map_iff. split.
  - intros [r [Hr Hin]]. destruct (Service.id r =? id) eqn:E.
    + apply Z.eqb_eq in E. right. exists r. auto.
    + apply Z.eqb_neq in E. left. subst s. auto.
  - intros [[Hin Hne] | [r (Hin & He & ->)]].
    + exists s. apply Z.eqb_neq in Hne. rewrite Hne. auto.
    + exists r. apply Z.eqb_eq in He. rewrite He. auto.
Qed.

Lemma getServices_deleteService_In (nameLe : string -> string -> bool)
    (userId : string) (id : Z) (db : Db) (s : Service.t) :
  In s (getServices nameLe userId (deleteService id db))
  <-> In s (getServices nameLe userId db) /\ Service.id s <> id.
Proof.
  rewrite !getServices_In, services_deleteService_In. split.
  - intros ([[Hin Hne] | [r (Hin & He & ->)]] & Hu & Ha).
    + tauto.
    + discriminate Ha.
  - intros ((Hin & Hu & Ha) & Hne). tauto.
Qed.

(** X9.  [deleteService] removes no row.  The service keeps its id and stays
    resolvable by [getService], now inactive, so the queue entries and
    appointments that reference it (which are not touched) still resolve on
    the server; it disappears from every tenant's [getServices] list, which
    otherwise stays as it was.  Deleting twice is deleting once. *)
Theorem deleteService_is_a_soft_delete (id : Z) (db : Db) :
  map Service.id (services (deleteService id db)) = map Service.id (services db)
  /\ getService id (deleteService id db) = option_map deactivate (getService id db)
  /\ (forall nameLe userId s,
        In s (getServices nameLe userId (deleteService id db))
        <-> In s (getServices nameLe userId db) /\ Service.id s <> id)
  /\ deleteService id (deleteService id db) = deleteService id db
  /\ queue (deleteService id db) = queue db
  /\ appointments (deleteService id db) = appointments db.
Proof.
  split; [|split; [|split; [|split; [|split]]]]; try reflexivity.
  - unfold deleteService. simpl. rewrite map_map. apply map_ext.
    intros r. destruct (Service.id r =? id); reflexivity.
  - unfold getService, deleteService. simpl.
    induction (services db) as [|r rows IH]; simpl; [reflexivity|].
    destruct (Service.id r =? id) eqn:E; simpl; rewrite E; [reflexivity | exact IH].
  - intros nameLe userId s. apply getServices_deleteService_In.
  - unfold deleteService, withServices. simpl. f_equal.
    rewrite map_map. apply map_ext. intros r.
    destruct (Service.id r =? id) eqn:E; simpl; rewrite E; reflexivity.
Qed.

(** X10.  Once a service is deleted, a client that lists the services afresh no
    longer finds it, whatever tenant it is: queue items that reference it are
    labelled "Unknown Service" and 30 minutes, and an estimate computed for
    it is 30 minutes per waiting entry, whatever its real duration. *)
Theorem deleted_service_falls_back_on_the_client
    (nameLe : string -> string -> bool) (userId : string) (id : Z) (db : Db) :
  let listed := Some (getServices nameLe userId (deleteService id db)) in
  findService listed id = None
  /\ getServiceName listed id = "Unknown Service"
  /\ getServiceDuration listed id = 30
  /\ calculateEstimatedWaitTime listed
       (Some (getQueue userId (deleteService id db))) id
     = waitingCount userId db * 30.
Proof.
  cbv zeta.
  assert (Hnone : findService (Some (getServices nameLe userId (deleteService id db))) id
                  = None).
  { simpl. apply find_none_on. intros s Hs.
    apply getServices_deleteService_In in Hs.
    apply Z.eqb_neq. tauto. }
  split; [exact Hnone|].
  unfold getServiceName, getServiceDuration, calculateEstimatedWaitTime.
  rewrite Hnone. split; [reflexivity|]. split; [reflexivity|].
  unfold waitingCount, getQueue.
  rewrite (Permutation_filter_length isWaiting _ _ (orderByPosition_Permutation _)).
  reflexivity.
Qed.

(** ** The end-time handlers of the booking form *)

(** X11.  [handleStartTimeChange] throws exactly when the start time is cleared
    while a listed service is selected in a booking (not a walk-in);
    [handleServiceChange] reads the start time from the form, skips an empty
    one and never throws.  When neither throws they agree: selecting the
    form's service again gives what re-entering the form's start time gives.
    Neither changes any field but the end time. *)
Theorem end_time_handlers (utcOffset : Z) (isWalkIn : bool)
    (services : option (list Service.t)) (form : FormValues) :
  (forall startTime,
     handleStartTimeChange utcOffset isWalkIn services form startTime = Throw RangeError
     <-> startTime = EmptyString /\ isWalkIn = false
         /\ findService services (form_serviceId form) <> None)
  /\ (forall startTime,
        handleStartTimeChange utcOffset isWalkIn services form startTime
        <> Throw ReferenceError)
  /\ (forall serviceId, exists endTime,
        handleServiceChange utcOffset isWalkIn services form serviceId
        = Normal (setEndTime form endTime))
  /\ (forall minutes,
        form_startTime form = WallClock minutes ->
        handleServiceChange utcOffset isWalkIn services form (Some (form_serviceId form))
        = handleStartTimeChange utcOffset isWalkIn services form (WallClock minutes))
  /\ (forall startTime form',
        handleStartTimeChange utcOffset isWalkIn services form startTime = Normal form' ->
        exists endTime, form' = setEndTime form endTime).
Proof.
  assert (Hsame : setEndTime form (form_endTime form) = form) by (destruct form; reflexivity).
  split; [|split; [|split; [|split]]].
  - intros startTime. unfold handleStartTimeChange.
    destruct (findService services (form_serviceId form)) as [service|];
      destruct isWalkIn; destruct startTime as [|minutes]; simpl;
      (split;
       [ intros H; try discriminate H; repeat split; congruence
       | intros (H1 & H2 & H3); congruence ]).
  - intros startTime. unfold handleStartTimeChange.
    destruct (findService services (form_serviceId form)) as [service|];
      destruct isWalkIn; destruct startTime as [|minutes]; simpl; discriminate.
  - intros serviceId. unfold handleServiceChange.
    destruct (match serviceId with
              | Some id => findService services id
              | None => None
              end) as [service|];
      [|exists (form_endTime form); rewrite Hsame; reflexivity].
    destruct isWalkIn; simpl;
      [exists (form_endTime form); rewrite Hsame; reflexivity|].
    destruct (form_startTime form) as [|minutes]; simpl;
      [exists (form_endTime form); rewrite Hsame; reflexivity|].
    eexists. reflexivity.
  - intros minutes Hstart. unfold handleServiceChange, handleStartTimeChange.
    rewrite Hstart. reflexivity.
  - intros startTime form'. unfold handleStartTimeChange.
    destruct (findService services (form_serviceId form)) as [service|];
      destruct isWalkIn; destruct startTime as [|minutes]; simpl;
      intros H; try discriminate H; injection H as <-;
      first [ exists (form_endTime form); symmetry; exact Hsame
            | eexists; reflexivity ].
Qed.

(** A haircut is selected and the date field is cleared. *)
Lemma end_time_handlers_witness :
  handleStartTimeChange 0 false (Some [haircut])
    (mkForm 1 1 "" (WallClock 28401660) (WallClock 28401690) "" 1) EmptyString
  = Throw RangeError
  /\ handleServiceChange 0 false (Some [haircut])
       (mkForm 1 1 "" (WallClock 28401660) EmptyString "" 1) (Some 1)
     = handleStartTimeChange 0 false (Some [haircut])
         (mkForm 1 1 "" (WallClock 28401660) EmptyString "" 1) (WallClock 28401660).
Proof.
  split; [reflexivity|].
  exact (proj1 (proj2 (proj2 (proj2
           (end_time_handlers 0 false (Some [haircut])
              (mkForm 1 1 "" (WallClock 28401660) EmptyString "" 1)))))
           28401660 eq_refl).
Defined.

(** ** What the form submits *)

(** X1.  [onSubmit] never hands a walk-in to the mutation: for every form
    input, service list and fetched queue it throws exactly when the modal is
    a walk-in, and then a ReferenceError, its payload's initialiser reading
    the constant it declares.  As a booking it never throws: it issues the
    update of the appointment being edited, or else a creation, with the
    form's values as they are. *)
Theorem onSubmit_never_admits (isWalkIn : bool) (appointmentToEdit : option Appointment.t)
    (services : option (list Service.t)) (queueData : option (list Queue.t))
    (data : FormValues) :
  (forall payload,
     onSubmit isWalkIn appointmentToEdit services queueData data
     <> Normal (CreateWalkIn payload))
  /\ (forall e,
        onSubmit isWalkIn appointmentToEdit services queueData data = Throw e
        <-> isWalkIn = true /\ e = ReferenceError)
  /\ (isWalkIn = false ->
      onSubmit isWalkIn appointmentToEdit services queueData data
      = match appointmentToEdit with
        | Some a => Normal (UpdateAppointment (Appointment.id a) data)
        | None => Normal (CreateAppointment data)
        end).
Proof.
  destruct isWalkIn; simpl.
  - split; [intros payload; discriminate|]. split; [|discriminate].
    intros e. split.
    + intros H. injection H as <-. auto.
    + intros [_ ->]. reflexivity.
  - split; [|split; [|reflexivity]].
    + intros payload. destruct appointmentToEdit; discriminate.
    + intros e. destruct appointmentToEdit; split;
        try discriminate; intros [H _]; discriminate H.
Qed.

(** ** The cart *)

Section CartFacts.

Context {number : Type} (Number : Z -> number).

Lemma quantityOf_absent (sid : Z) (cart : list (CartItem number)) :
  (forall x, In x cart -> item_serviceId x <> sid) -> quantityOf sid cart = 0.
Proof.
  induction cart as [|x cart IH]; simpl; intros H; [reflexivity|].
  pose proof (H x (or_introl eq_refl)) as Hx. apply Z.eqb_neq in Hx.
  rewrite Hx, IH; [reflexivity|]. intros y Hy. apply H. right. exact Hy.
Qed.

Lemma quantityOf_app (id : Z) (cart cart' : list (CartItem number)) :
  quantityOf id (cart ++ cart') = quantityOf id cart + quantityOf id cart'.
Proof.
  induction cart as [|x cart IH]; simpl; [reflexivity|]. rewrite IH. lia.
Qed.

(** Setting the quantity of the items of one service to [f item]. *)
Lemma quantityOf_set (sid id : Z) (f : CartItem number -> Z) (cart : list (CartItem number)) :
  NoDup (map item_serviceId cart) ->
  quantityOf id
    (map (fun item => if item_serviceId item =? sid then setQuantity (f item) item else item)
         cart)
  = match find (fun item => item_serviceId item =? sid) cart with
    | Some item => if id =? sid then f item else quantityOf id cart
    | None => quantityOf id cart
    end.
Proof.
  induction cart as [|x cart IH]; simpl; intros Hnd; [reflexivity|].
  apply NoDup_cons_iff in Hnd. destruct Hnd as [Hx Hnd].
  destruct (item_serviceId x =? sid) eqn:E; simpl.
  - apply Z.eqb_eq in E.
    assert (Habs : forall y, In y cart -> item_serviceId y <> sid).
    { intros y Hy He. apply Hx. rewrite E, <- He. apply in_map. exact Hy. }
    rewrite IH by exact Hnd.
    rewrite (find_none_on _ cart)
      by (intros y Hy; apply Z.eqb_neq, Habs; exact Hy).
    destruct (id =? sid) eqn:E'.
    + apply Z.eqb_eq in E'. subst id. rewrite E, Z.eqb_refl.
      rewrite (quantityOf_absent sid cart Habs). lia.
    + rewrite E. rewrite Z.eqb_sym, E'. reflexivity.
  - rewrite IH by exact Hnd.
    destruct (find (fun item => item_serviceId item =? sid) cart) as [item|];
      [|reflexivity].
    destruct (id =? sid) eqn:E'; [|reflexivity].
    apply Z.eqb_eq in E'. subst id. rewrite E. lia.
Qed.

Lemma quantityOf_found (sid : Z) (cart : list (CartItem number)) (item : CartItem number) :
  NoDup (map item_serviceId cart) ->
  find (fun x => item_serviceId x =? sid) cart = Some item ->
  quantityOf sid cart = item_quantity item
  /\ forall x, In x cart -> item_serviceId x = sid -> x = item.
Proof.
  induction cart as [|y cart IH]; simpl; intros Hnd Hf; [discriminate|].
  apply NoDup_cons_iff in Hnd. destruct Hnd as [Hy Hnd].
  destruct (item_serviceId y =? sid) eqn:E.
  - injection Hf as <-. apply Z.eqb_eq in E.
    assert (Habs : forall x, In x cart -> item_serviceId x <> sid).
    { intros x Hx He. apply Hy. rewrite E, <- He. apply in_map. exact Hx. }
    rewrite (quantityOf_absent sid cart Habs). split; [lia|].
    intros x [<- | Hx] He; [reflexivity|]. exfalso. exact (Habs x Hx He).
  - destruct (IH Hnd Hf) as [Hq Huniq]. split; [lia|].
    intros x [<- | Hx] He; [|apply Huniq; assumption].
    apply Z.eqb_neq in E. contradiction.
Qed.

Lemma quantityOf_addToCart (service : Service.t) (id : Z) (cart : list (CartItem number)) :
  NoDup (map item_serviceId cart) ->
  quantityOf id (addToCart Number service cart)
  = quantityOf id cart + (if id =? Service.id service then 1 else 0).
Proof.
  intros Hnd. unfold addToCart.
  destruct (find (fun item => item_serviceId item =? Service.id service) cart)
    as [item|] eqn:Hf.
  - rewrite (quantityOf_set (Service.id service) id
               (fun item => item_quantity item + 1) cart Hnd), Hf.
    destruct (id =? Service.id service) eqn:E; [|lia].
    apply Z.eqb_eq in E. subst id.
    rewrite (proj1 (quantityOf_found _ _ _ Hnd Hf)). reflexivity.
  - rewrite quantityOf_app. simpl. rewrite (Z.eqb_sym id). lia.
Qed.

Lemma cartOk_applyCartCall (call : cartCall) (cart : list (CartItem number)) :
  cartOk cart -> cartOk (applyCartCall Number call cart).
Proof.
  intros [Hnd Hq].
  assert (Hset : forall sid (f : CartItem number -> Z),
             (forall x, In x cart -> 1 <= f x) ->
             cartOk (map (fun item => if item_serviceId item =? sid
                                      then setQuantity (f item) item else item) cart)).
  { intros sid f Hf. split.
    - rewrite map_map. rewrite (map_ext _ item_serviceId); [exact Hnd|].
      intros x. destruct (item_serviceId x =? sid); reflexivity.
    - apply Forall_forall. intros y Hy. apply in_map_iff in Hy.
      destruct Hy as [x [<- Hx]]. rewrite Forall_forall in Hq.
      destruct (item_serviceId x =? sid); simpl; [apply Hf | apply Hq]; exact Hx. }
  assert (Hrem : forall sid, cartOk (removeFromCart sid cart)).
  { intros sid. unfold removeFromCart. split.
    - clear Hq Hset. induction cart as [|x cart IH]; simpl; [constructor|].
      simpl in Hnd. apply NoDup_cons_iff in Hnd. destruct Hnd as [Hx Hnd].
      destruct (negb (item_serviceId x =? sid)); simpl; [|apply IH; exact Hnd].
      constructor; [|apply IH; exact Hnd].
      intros Hin. apply Hx. apply in_map_iff in Hin.
      destruct Hin as [y [Hy Hin]]. apply filter_In in Hin.
      apply in_map_iff. exists y. tauto.
    - rewrite Forall_forall in *. intros x Hx. apply filter_In in Hx.
      apply Hq. tauto. }
  destruct call as [service | sid | sid quantity]; simpl.
  - unfold addToCart.
    destruct (find (fun item => item_serviceId item =? Service.id service) cart)
      as [item|] eqn:Hf.
    + apply Hset. intros x Hx. rewrite Forall_forall in Hq. specialize (Hq x Hx). lia.
    + split.
      * rewrite map_app. simpl.
        apply NoDup_app; [exact Hnd | repeat constructor; intros [] |].
        intros s Hs [<- | []]. apply in_map_iff in Hs.
        destruct Hs as [x [Hx Hin]].
        pose proof (find_none _ _ Hf x Hin) as Hne. simpl in Hne.
        apply Z.eqb_neq in Hne. contradiction.
      * apply Forall_app. split; [exact Hq|]. repeat constructor. simpl. lia.
  - apply Hrem.
  - unfold updateQuantity. destruct (quantity <=? 0) eqn:E; [apply Hrem|].
    apply Hset. intros x _. apply Z.leb_gt in E. lia.
Qed.

(** X12.  The cart never holds two items of one service, nor an item of quantity
    below 1, whatever services are added, removed or given a new quantity
    (of any sign), starting from the empty cart. *)
Theorem cart_keeps_one_item_per_service (calls : list cartCall) :
  cartOk (runCart Number calls []).
Proof.
  unfold runCart.
  assert (H : forall cart : list (CartItem number), cartOk cart ->
                cartOk (fold_left (fun c call => applyCartCall Number call c) calls cart)).
  { induction calls as [|call rest IH]; simpl; intros cart Hok; [exact Hok|].
    apply IH. apply cartOk_applyCartCall. exact Hok. }
  apply H. split; constructor.
Qed.

(** X13.  In a cart with one item per service: adding a service raises its
    quantity by one (from 0 when it is new) and leaves the other quantities;
    removing a service makes its quantity 0 and leaves the others; giving a
    service a positive quantity sets it if the service is in the cart and
    adds nothing if it is not. *)
Theorem cart_quantities (cart : list (CartItem number)) :
  cartOk cart ->
  (forall service id,
     quantityOf id (addToCart Number service cart)
     = quantityOf id cart + (if id =? Service.id service then 1 else 0))
  /\ (forall serviceId id,
        quantityOf id (removeFromCart serviceId cart)
        = if id =? serviceId then 0 else quantityOf id cart)
  /\ (forall serviceId quantity id,
        0 < quantity ->
        quantityOf id (updateQuantity serviceId quantity cart)
        = if (id =? serviceId)
             && existsb (fun item => item_serviceId item =? serviceId) cart
          then quantity else quantityOf id cart).
Proof.
  intros [Hnd Hq]. split; [|split].
  - intros service id. apply quantityOf_addToCart. exact Hnd.
  - intros serviceId id. unfold removeFromCart. clear Hnd Hq.
    induction cart as [|x cart IH]; simpl; [destruct (id =? serviceId); reflexivity|].
    destruct (item_serviceId x =? serviceId) eqn:E; simpl.
    + rewrite IH. destruct (id =? serviceId) eqn:E'; [reflexivity|].
      apply Z.eqb_eq in E. rewrite E, Z.eqb_sym, E'. reflexivity.
    + rewrite IH. destruct (id =? serviceId) eqn:E'; [|reflexivity].
      apply Z.eqb_eq in E'. subst id. rewrite E. reflexivity.
  - intros serviceId quantity id Hpos. unfold updateQuantity.
    apply Z.leb_gt in Hpos. rewrite Hpos.
    rewrite (quantityOf_set serviceId id (fun _ => quantity) cart Hnd).
    destruct (find (fun item => item_serviceId item =? serviceId) cart)
      as [item|] eqn:Hf.
    + assert (Hex : existsb (fun item => item_serviceId item =? serviceId) cart = true).
      { apply existsb_exists. exists item. apply find_some in Hf. exact Hf. }
      rewrite Hex, andb_true_r. reflexivity.
    + assert (Hex : existsb (fun item => item_serviceId item =? serviceId) cart = false).
      { destruct (existsb _ cart) eqn:Hex; [|reflexivity].
        apply existsb_exists in Hex. destruct Hex as [x [Hx Hm]].
        pose proof (find_none _ _ Hf x Hx) as Hn. simpl in Hn. congruence. }
      rewrite Hex, andb_false_r. reflexivity.
Qed.

(** X14.  In a cart with one item per service, each of quantity at least 1:
    adding a service and then lowering its quantity by one gives back the
    cart as it was, the new item being removed again when its quantity
    comes down to 0. *)
Theorem cart_add_then_minus (service : Service.t) (cart : list (CartItem number)) :
  cartOk cart ->
  updateQuantity (Service.id service)
    (quantityOf (Service.id service) (addToCart Number service cart) - 1)
    (addToCart Number service cart)
  = cart.
Proof.
  intros [Hnd Hq].
  rewrite (quantityOf_addToCart service (Service.id service) cart Hnd).
  rewrite Z.eqb_refl.
  unfold addToCart, updateQuantity.
  destruct (find (fun item => item_serviceId item =? Service.id service) cart)
    as [item|] eqn:Hf.
  - destruct (quantityOf_found _ _ _ Hnd Hf) as [Hqty Huniq]. rewrite Hqty.
    assert (Hitem : 1 <= item_quantity item).
    { rewrite Forall_forall in Hq. apply Hq. apply find_some in Hf. tauto. }
    replace (item_quantity item + 1 - 1 <=? 0) with false
      by (symmetry; apply Z.leb_gt; lia).
    rewrite map_map. rewrite <- (map_id cart) at 2. apply map_ext_in.
    intros x Hx. destruct (item_serviceId x =? Service.id service) eqn:E; simpl.
    + rewrite E. apply Z.eqb_eq in E. rewrite (Huniq x Hx E).
      destruct item. unfold setQuantity. simpl. f_equal. lia.
    + rewrite E. reflexivity.
  - rewrite (quantityOf_absent (Service.id service) cart).
    + simpl. unfold removeFromCart. rewrite filter_app. simpl.
      rewrite Z.eqb_refl. simpl. rewrite app_nil_r.
      apply filter_true_on. intros x Hx.
      pose proof (find_none _ _ Hf x Hx) as Hn. simpl in Hn. rewrite Hn. reflexivity.
    + intros x Hx. apply Z.eqb_neq. exact (find_none _ _ Hf x Hx).
Qed.

End CartFacts.

(** A cart of one haircut: a second haircut makes two, and minus makes one. *)
Lemma cart_quantities_witness :
  quantityOf 1 (addToCart (fun cents : Z => cents) haircut
                  (addToCart (fun cents : Z => cents) haircut [])) = 2.
Proof.
  assert (Hok : cartOk (addToCart (fun cents : Z => cents) haircut [])).
  { split; repeat constructor; simpl; [intros [] | lia]. }
  exact (proj1 (cart_quantities (fun cents : Z => cents) _ Hok) haircut 1).
Defined.

Lemma cart_add_then_minus_witness :
  updateQuantity 1
    (quantityOf 1 (addToCart (fun cents : Z => cents) haircut
                     (addToCart (fun cents : Z => cents) haircut [])) - 1)
    (addToCart (fun cents : Z => cents) haircut
       (addToCart (fun cents : Z => cents) haircut []))
  = addToCart (fun cents : Z => cents) haircut [].
Proof.
  apply (cart_add_then_minus (fun cents : Z => cents) haircut).
  split; repeat constructor; simpl; [intros [] | lia].
Defined.

(** ** The subdomain of a business name *)

Lemma toLowerCase_fixes_lowerAlnum (c : ascii) :
  isLowerAlnum c = true -> toLowerCase c = c.
Proof.
  unfold isLowerAlnum, toLowerCase. cbv zeta. intros H.
  destruct ((65 <=? nat_of_ascii c)%nat && (nat_of_ascii c <=? 90)%nat) eqn:E;
    [|reflexivity].
  exfalso.
  apply andb_true_iff in E. destruct E as [E1 E2].
  apply Nat.leb_le in E1, E2.
  apply orb_true_iff in H. rewrite !andb_true_iff, !Nat.leb_le in H. lia.
Qed.

Lemma firstn_In {A : Type} (n : nat) (l : list A) (x : A) :
  In x (firstn n l) -> In x l.
Proof.
  intros H. rewrite <- (firstn_skipn n l). apply in_or_app. left. exact H.
Qed.

Lemma length_string_of_list_ascii (l : list ascii) :
  String.length (string_of_list_ascii l) = List.length l.
Proof. induction l as [|c l IH]; simpl; [reflexivity | rewrite IH; reflexivity]. Qed.

(** X15.  The base of a subdomain has at most 20 characters, all of them
    lower-case letters or digits; a name that already has this form is its
    own base, so taking the base twice is taking it once. *)
Theorem baseSubdomain_is_clean (businessName : string) :
  (String.length (baseSubdomain businessName) <= 20)%nat
  /\ Forall (fun c => isLowerAlnum c = true)
            (list_ascii_of_string (baseSubdomain businessName))
  /\ ((String.length businessName <= 20)%nat ->
      Forall (fun c => isLowerAlnum c = true) (list_ascii_of_string businessName) ->
      baseSubdomain businessName = businessName)
  /\ baseSubdomain (baseSubdomain businessName) = baseSubdomain businessName.
Proof.
  assert (Hlen : (String.length (baseSubdomain businessName) <= 20)%nat).
  { unfold baseSubdomain. rewrite length_string_of_list_ascii. apply firstn_le_length. }
  assert (Hall : Forall (fun c => isLowerAlnum c = true)
                   (list_ascii_of_string (baseSubdomain businessName))).
  { unfold baseSubdomain. rewrite list_ascii_of_string_of_list_ascii.
    apply Forall_forall. intros c Hc. apply firstn_In in Hc.
    apply filter_In in Hc. tauto. }
  assert (Hfix : forall s, (String.length s <= 20)%nat ->
                   Forall (fun c => isLowerAlnum c = true) (list_ascii_of_string s) ->
                   baseSubdomain s = s).
  { intros s Hs Hc. unfold baseSubdomain.
    rewrite <- (string_of_list_ascii_of_string s) at 2. f_equal.
    rewrite <- (string_of_list_ascii_of_string s), length_string_of_list_ascii in Hs.
    rewrite Forall_forall in Hc.
    rewrite (map_ext_in toLowerCase (fun c => c));
      [|intros c Hin; apply toLowerCase_fixes_lowerAlnum, Hc, Hin].
    rewrite map_id. rewrite filter_true_on by exact Hc.
    apply firstn_all2. exact Hs. }
  split; [exact Hlen|]. split; [exact Hall|]. split; [exact (Hfix businessName)|].
  apply Hfix; assumption.
Qed.

Lemma baseSubdomain_is_clean_witness :
  baseSubdomain "Cutz & Co. (Downtown Barbers)" = "cutzcodowntownbarber"
  /\ baseSubdomain "cutz" = "cutz".
Proof.
  split; [reflexivity|].
  apply (proj1 (proj2 (proj2 (baseSubdomain_is_clean "cutz")))).
  - simpl. lia.
  - repeat constructor.
Defined.

Lemma decimal_parses (z : Z) :
  NilZero.int_of_string (decimal z) = Some (Z.to_int z).
Proof.
  unfold decimal. apply NilZero.isi; destruct z as [|p|p]; simpl; try discriminate;
    intros H; injection H as H; exact (DecimalPos.Unsigned.to_uint_nonnil p H).
Qed.

Lemma decimal_inj (a b : Z) : decimal a = decimal b -> a = b.
Proof.
  intros H. apply DecimalZ.to_int_inj.
  pose proof (decimal_parses a) as Ha. rewrite H, decimal_parses in Ha.
  congruence.
Qed.

Lemma decimal_nonempty (z : Z) : decimal z <> "".
Proof.
  intros H. pose proof (decimal_parses z) as Hp. rewrite H in Hp. discriminate Hp.
Qed.

Lemma append_inj (s a b : string) : (s ++ a = s ++ b)%string -> a = b.
Proof.
  induction s as [|c s IH]; simpl; intros H; [exact H|].
  injection H as H. apply IH. exact H.
Qed.

Lemma append_self (s a : string) : (s = s ++ a)%string -> a = "".
Proof.
  induction s as [|c s IH]; simpl; intros H; [symmetry; exact H|].
  injection H as H. apply IH. exact H.
Qed.

Lemma candidate_inj (base : string) (a b : nat) :
  candidate base a = candidate base b -> a = b.
Proof.
  destruct a as [|a], b as [|b]; simpl candidate; intros H.
  - reflexivity.
  - apply append_self in H. exfalso. exact (decimal_nonempty _ H).
  - symmetry in H. apply append_self in H. exfalso. exact (decimal_nonempty _ H).
  - apply append_inj, decimal_inj in H. lia.
Qed.

Lemma userWithSubdomain_None (s : string) (users : list User.t) :
  userWithSubdomain s users = None <-> ~ In s (subdomains users).
Proof.
  unfold userWithSubdomain, subdomains.
  induction users as [|u users IH]; simpl; [tauto|].
  destruct (User.subdomain u) as [x|]; simpl; [|exact IH].
  destruct (String.eqb x s) eqn:E; simpl.
  - apply String.eqb_eq in E. split; [discriminate | intros H; exfalso; apply H; auto].
  - apply String.eqb_neq in E. rewrite IH. tauto.
Qed.

Lemma length_subdomains (users : list User.t) :
  (List.length (subdomains users) <= List.length users)%nat.
Proof.
  unfold subdomains. induction users as [|u users IH]; simpl; [lia|].
  destruct (User.subdomain u); simpl; lia.
Qed.

(** The loop stops at the first free candidate, if its fuel reaches it. *)
Lemma generateSubdomainLoop_first_free (users : list User.t) (base : string)
    (fuel j k : nat) :
  (j <= k)%nat -> (k < j + fuel)%nat ->
  ~ In (candidate base k) (subdomains users) ->
  (forall i, (j <= i)%nat -> (i < k)%nat -> In (candidate base i) (subdomains users)) ->
  generateSubdomainLoop fuel users base (candidate base j) (Z.of_nat j + 1)
  = Some (candidate base k).
Proof.
  revert j. induction fuel as [|fuel IH]; intros j Hjk Hk Hfree Hused; [lia|].
  simpl. destruct (Nat.eq_dec j k) as [-> | Hne].
  - apply userWithSubdomain_None in Hfree. rewrite Hfree. reflexivity.
  - destruct (userWithSubdomain (candidate base j) users) eqn:E.
    + replace (base ++ decimal (Z.of_nat j + 1))%string with (candidate base (S j))
        by (unfold candidate; do 2 f_equal; lia).
      replace (Z.of_nat j + 1 + 1) with (Z.of_nat (S j) + 1) by lia.
      apply IH; [lia | lia | exact Hfree |].
      intros i Hi Hik. apply Hused; lia.
    + apply userWithSubdomain_None in E. exfalso. apply E, Hused; lia.
Qed.

(** Among the first [n + 1] candidates one is free when [n] users exist. *)
Lemma first_free_candidate (users : list User.t) (base : string) :
  exists k, (k <= List.length users)%nat
            /\ ~ In (candidate base k) (subdomains users)
            /\ forall i, (i < k)%nat -> In (candidate base i) (subdomains users).
Proof.
  assert (Hsearch : forall m,
             (exists k, (k <= m)%nat
                        /\ ~ In (candidate base k) (subdomains users)
                        /\ forall i, (i < k)%nat -> In (candidate base i) (subdomains users))
             \/ (forall i, (i <= m)%nat -> In (candidate base i) (subdomains users))).
  { induction m as [|m [[k (Hk & Hfree & Hused)] | Hall]].
    - destruct (in_dec string_dec (candidate base 0) (subdomains users)) as [Hin | Hout].
      + right. intros i Hi. replace i with 0%nat by lia. exact Hin.
      + left. exists 0%nat. split; [lia|]. split; [exact Hout|]. intros i Hi. lia.
    - left. exists k. split; [lia|]. auto.
    - destruct (in_dec string_dec (candidate base (S m)) (subdomains users))
        as [Hin | Hout].
      + right. intros i Hi. destruct (Nat.eq_dec i (S m)) as [-> | Hne];
          [exact Hin | apply Hall; lia].
      + left. exists (S m). split; [lia|]. split; [exact Hout|].
        intros i Hi. apply Hall. lia. }
  destruct (Hsearch (List.length users)) as [H | Hall]; [exact H|].
  exfalso.
  assert (Hnd : NoDup (map (candidate base) (seq 0 (S (List.length users))))).
  { apply Finite.Injective_map_NoDup; [|apply seq_NoDup].
    intros a b. apply candidate_inj. }
  assert (Hincl : incl (map (candidate base) (seq 0 (S (List.length users))))
                       (subdomains users)).
  { intros s Hs. apply in_map_iff in Hs. destruct Hs as [i [<- Hi]].
    apply in_seq in Hi. apply Hall. lia. }
  pose proof (NoDup_incl_length Hnd Hincl) as Hlen.
  rewrite length_map, length_seq in Hlen.
  pose proof (length_subdomains users). lia.
Qed.

(** X16.  [generateSubdomain] terminates: with more iterations allowed than there
    are users, it returns the first of the names base, base1, base2, ... that
    no user has as subdomain, after at most one try per user plus one.  What
    it returns is therefore free, and is the base itself when the base is
    free. *)
Theorem generateSubdomain_returns_first_free
    (fuel : nat) (users : list User.t) (businessName : string) :
  (List.length users < fuel)%nat ->
  exists k,
    (k <= List.length users)%nat
    /\ generateSubdomain fuel users businessName
       = Some (candidate (baseSubdomain businessName) k)
    /\ ~ In (candidate (baseSubdomain businessName) k) (subdomains users)
    /\ forall i, (i < k)%nat ->
                 In (candidate (baseSubdomain businessName) i) (subdomains users).
Proof.
  intros Hfuel.
  destruct (first_free_candidate users (baseSubdomain businessName))
    as [k (Hk & Hfree & Hused)].
  exists k. split; [exact Hk|]. split; [|split; assumption].
  unfold generateSubdomain.
  apply (generateSubdomainLoop_first_free users (baseSubdomain businessName) fuel 0 k);
    [lia | lia | exact Hfree |].
  intros i _ Hi. apply Hused. exact Hi.
Qed.

(** With "cutz" and "cutz1" taken, "Cutz!" gets "cutz2". *)
Lemma generateSubdomain_returns_first_free_witness :
  generateSubdomain 4 (users threeUsers) "Cutz!" = Some "cutz2"
  /\ exists k,
       (k <= List.length (users threeUsers))%nat
       /\ generateSubdomain 4 (users threeUsers) "Cutz!"
          = Some (candidate (baseSubdomain "Cutz!") k)
       /\ ~ In (candidate (baseSubdomain "Cutz!") k) (subdomains (users threeUsers))
       /\ forall i, (i < k)%nat ->
                    In (candidate (baseSubdomain "Cutz!") i)
                       (subdomains (users threeUsers)).
Proof.
  split; [reflexivity|].
  apply (generateSubdomain_returns_first_free 4 (users threeUsers) "Cutz!").
  simpl. lia.
Defined.
(** ** Onboarding *)

Lemma userExists_iff (userId : string) (accounts : Accounts) :
  userExists userId accounts = true
  <-> exists u, In u (users accounts) /\ User.id u = userId.
Proof.
  unfold userExists. rewrite existsb_exists.
  split; intros [u [Hu He]]; exists u; split; try exact Hu;
    [apply String.eqb_eq | apply String.eqb_eq]; exact He.
Qed.

Lemma barberFits_barberData (b : OnboardingBarber.t) :
  barberFits (barberData b) = true
  <-> forall e, OnboardingBarber.experience b = Some e ->
                -2147483648 <= e <= 2147483647.
Proof.
  unfold barberFits, barberData. simpl. rewrite andb_true_r.
  destruct (OnboardingBarber.experience b) as [e0|]; simpl.
  - rewrite int4_iff. split.
    + intros H e He. injection He as <-. exact H.
    + intros H. apply H. reflexivity.
  - split; [intros _ e He; discriminate He | reflexivity].
Qed.

Lemma createBarbers_users (barbersData : list OnboardingBarber.t) (userId : string)
    (now : Z) (accounts : Accounts) :
  users (snd (createBarbers barbersData userId now accounts)) = users accounts.
Proof.
  revert accounts. induction barbersData as [|b bs IH]; intros accounts;
    [reflexivity|].
  cbn [createBarbers]. unfold createBarber.
  destruct (barberFits (barberData b)); [|reflexivity].
  destruct (userExists userId accounts); [|reflexivity].
  rewrite IH. reflexivity.
Qed.

(** For a user no row has, the loop throws at its first insert and stores
    no barber. *)
Lemma createBarbers_unknown (barbersData : list OnboardingBarber.t) (userId : string)
    (now : Z) (accounts : Accounts) :
  userExists userId accounts = false ->
  barbers (snd (createBarbers barbersData userId now accounts)) = barbers accounts
  /\ (barbersData <> [] ->
      fst (createBarbers barbersData userId now accounts) = Thrown)
  /\ (barbersData = [] ->
      createBarbers barbersData userId now accounts = (Returned tt, accounts)).
Proof.
  intros Hno. destruct barbersData as [|b bs].
  - split; [reflexivity|]. split; [intros H; congruence | reflexivity].
  - cbn [createBarbers]. unfold createBarber. rewrite Hno.
    destruct (barberFits (barberData b));
      (split; [reflexivity|]; split; [reflexivity | intros H; discriminate H]).
Qed.

(** For a user that exists, the loop appends the entries that fit, in
    order, up to the first that does not. *)
Lemma createBarbers_known (barbersData : list OnboardingBarber.t) (userId : string)
    (now : Z) (accounts : Accounts) :
  userExists userId accounts = true ->
  Forall (fun b => barberFits (barberData b) = true) barbersData ->
  exists rows,
    fst (createBarbers barbersData userId now accounts) = Returned tt
    /\ barbers (snd (createBarbers barbersData userId now accounts))
       = barbers accounts ++ rows
    /\ map Barber.name rows = map OnboardingBarber.name barbersData
    /\ map Barber.specialties rows
       = map (fun b => Some (OnboardingBarber.specialties b)) barbersData
    /\ Forall (fun r => Barber.userId r = userId
                        /\ Barber.isActive r = Some true
                        /\ Barber.rating r = Some 0)
              rows
    /\ barbers_id_seq (snd (createBarbers barbersData userId now accounts))
       = barbers_id_seq accounts + Z.of_nat (List.length barbersData)
    /\ (0 <= barbers_id_seq accounts ->
        serialIds Barber.id (barbers accounts) (barbers_id_seq accounts) ->
        serialIds Barber.id
          (barbers (snd (createBarbers barbersData userId now accounts)))
          (barbers_id_seq (snd (createBarbers barbersData userId now accounts)))).
Proof.
  revert accounts. induction barbersData as [|b bs IH]; intros accounts Hex Hfit.
  - exists []. simpl. rewrite app_nil_r, Z.add_0_r.
    split; [reflexivity|]. split; [reflexivity|]. split; [reflexivity|].
    split; [reflexivity|]. split; [constructor|]. split; [reflexivity|].
    intros _ H. exact H.
  - apply Forall_cons_iff in Hfit. destruct Hfit as [Hb Hfit].
    cbn [createBarbers]. unfold createBarber. rewrite Hb, Hex.
    set (newBarber := Barber.mk _ _ _ _ _ _ _ _ _ _ _ _ _).
    set (accounts1 := mkAccounts _ _ _).
    destruct (IH accounts1 Hex Hfit)
      as [rows (Hret & Hrows & Hnames & Hspec & Hall & Hseq & Hids)].
    exists (newBarber :: rows).
    split; [exact Hret|].
    split; [rewrite Hrows; unfold accounts1; simpl; rewrite <- app_assoc; reflexivity|].
    split; [simpl; rewrite Hnames; reflexivity|].
    split; [simpl; rewrite Hspec; reflexivity|].
    split; [constructor; [simpl; auto | exact Hall]|].
    split.
    { rewrite Hseq. change (List.length (b :: bs)) with (S (List.length bs)).
      rewrite Nat2Z.inj_succ. unfold accounts1. simpl barbers_id_seq. lia. }
    intros H0 Hok. apply Hids; unfold accounts1; simpl; [lia|].
    apply serialIds_append; [exact H0 | reflexivity | exact Hok].
Qed.

Lemma createBarbers_app (before after : list OnboardingBarber.t) (userId : string)
    (now : Z) (accounts : Accounts) :
  createBarbers (before ++ after) userId now accounts
  = match createBarbers before userId now accounts with
    | (Returned _, accounts') => createBarbers after userId now accounts'
    | (Thrown, accounts') => (Thrown, accounts')
    end.
Proof.
  revert accounts. induction before as [|b bs IH]; intros accounts; [reflexivity|].
  change ((b :: bs) ++ after) with (b :: (bs ++ after)).
  cbn [createBarbers].
  destruct (createBarber (barberData b) userId now accounts) as [[r|] accounts'];
    [apply IH | reflexivity].
Qed.



Lemma subdomains_cons (u : User.t) (users : list User.t) :
  subdomains (u :: users)
  = match User.subdomain u with Some s => [s] | None => [] end ++ subdomains users.
Proof. reflexivity. Qed.

Lemma subdomains_setOnboarded (s userId : string) (data : OnboardingData.t) (now : Z)
    (users : list User.t) :
  NoDup (map User.id users) -> NoDup (subdomains users) -> ~ In s (subdomains users) ->
  NoDup (subdomains
           (map (fun row => if String.eqb (User.id row) userId
                            then setOnboarded s data now row else row) users))
  /\ forall x,
       In x (subdomains
               (map (fun row => if String.eqb (User.id row) userId
                                then setOnboarded s data now row else row) users)) ->
       x = s \/ In x (subdomains users).
Proof.
  induction users as [|u users IH]; intros Hids Hnd Hs.
  - simpl. split; [constructor | tauto].
  - simpl map in *. apply NoDup_cons_iff in Hids. destruct Hids as [Hu Hids].
    rewrite subdomains_cons in Hnd, Hs.
    assert (Hnd' : NoDup (subdomains users)) by (apply NoDup_app_remove_l in Hnd; exact Hnd).
    assert (Hs' : ~ In s (subdomains users))
      by (intros H; apply Hs, in_or_app; right; exact H).
    destruct (String.eqb (User.id u) userId) eqn:E.
    + apply String.eqb_eq in E.
      assert (Hsame : map (fun row => if String.eqb (User.id row) userId
                                      then setOnboarded s data now row else row) users
                      = users).
      { rewrite <- (map_id users) at 2. apply map_ext_in. intros r Hr.
        destruct (String.eqb (User.id r) userId) eqn:Er; [|reflexivity].
        apply String.eqb_eq in Er. exfalso. apply Hu. rewrite E, <- Er.
        apply in_map. exact Hr. }
      rewrite Hsame, !subdomains_cons. simpl. split.
      * constructor; assumption.
      * intros x [<- | Hx]; [left; reflexivity | right; apply in_or_app; right; exact Hx].
    + destruct (IH Hids Hnd' Hs') as [IHnd IHin].
      rewrite !subdomains_cons. split.
      * destruct (User.subdomain u) as [x|]; simpl in *; [|exact IHnd].
        apply NoDup_cons_iff in Hnd. destruct Hnd as [Hx _].
        constructor; [|exact IHnd].
        intros Hin. destruct (IHin x Hin) as [-> | Hin']; [|contradiction].
        apply Hs. left. reflexivity.
      * intros x Hx. apply in_app_or in Hx. destruct Hx as [Hx | Hx].
        -- right. apply in_or_app. left. exact Hx.
        -- destruct (IHin x Hx) as [-> | Hx']; [left; reflexivity|].
           right. apply in_or_app. right. exact Hx'.
Qed.

Lemma lookup_unique_user (users : list User.t) (g : User.t -> User.t) (u : User.t) :
  (forall r, User.id (g r) = User.id r) ->
  In u users ->
  NoDup (map User.id users) ->
  hd_error (filter (fun row => String.eqb (User.id row) (User.id u))
              (map (fun row => if String.eqb (User.id row) (User.id u)
                               then g row else row) users))
  = Some (g u).
Proof.
  intros Hg. induction users as [|r users IH]; simpl; intros Hin Hnd; [destruct Hin|].
  apply NoDup_cons_iff in Hnd. destruct Hnd as [Hr Hnd].
  destruct Hin as [-> | Hin].
  - rewrite String.eqb_refl, Hg, String.eqb_refl. reflexivity.
  - destruct (String.eqb (User.id r) (User.id u)) eqn:E.
    + apply String.eqb_eq in E. exfalso. apply Hr. rewrite E. apply in_map. exact Hin.
    + rewrite E. apply IH; assumption.
Qed.


